(** * Animator: the lifecycle state machine and the frame throttle of
    [src/index.ts], embedded shallowly.

    The class [Animator] keeps its state in private fields, reads the wall
    clock with [Date.now()], asks the host for the next animation frame and
    calls the handlers that were subscribed to it.  The embedding keeps that
    shape: a record for the fields, a small state-and-output monad for the
    methods, and an inductive type for what the host can observe (a handler
    being called, a frame being requested).

    Modelling choices, each stated where it is made:
    - a JavaScript [number] that holds a rate, or a quotient computed from
      one, is an IEEE 754 double: the kernel's binary64 floats, with their
      own division and comparisons, infinities, signed zeros and NaN;
    - a timestamp is an integer number of milliseconds, and so is the
      difference of two timestamps ([Date.now()] returns a time value, at
      most 8.64e15 in magnitude, and a double holds every integer below
      2^53 exactly); [delta >= delay] compares that integer with the
      double by value, which below 2^53 is the comparison of doubles;
    - a handler is a function object, compared by identity, whose body is
      opaque and does not call back into the animator: it is a name, and a
      call of it is recorded in the output;
    - [Date.now()] returns the successive readings of an arbitrary clock.

    The embedding follows the TypeScript source.  The compiled build
    [dist/index.js] differs from it in three places: its constructor stores
    [Math.min(fps, MAX_FPS)], its [setTargetFPS] also clears
    [ignoreTargetFPS], and it has a method [setIgnoreTargetFPS]. *)

From Stdlib Require Import ZArith List Bool Lia Floats.
Import ListNotations.

Local Open Scope Z_scope.

(** ** Numbers *)

(** A rate, or a quotient computed from one: a double. *)
Definition number : Type := float.

Bind Scope float_scope with number.

(** The double that holds a difference of timestamps: the integer itself
    below 2^53 in magnitude, the nearest double beyond. *)
Definition number_of_Z (z : Z) : number :=
  SF2Prim (binary_normalize prec emax z 0 false).

(** [x >= y] for [x] a difference of timestamps and [y] a double: the
    comparison of the two numbers held.  A finite double is
    [m * 2 ^ e], negated when its sign is set; NaN compares false.  Below
    2^53 this is [y <=? number_of_Z x] on doubles, as proved further
    down. *)
Definition number_ge (x : Z) (y : number) : bool :=
  match Prim2SF y with
  | S754_nan => false
  | S754_infinity negative => negative
  | S754_zero _ => 0 <=? x
  | S754_finite negative m e =>
      let v := if negative then Z.neg m else Z.pos m in
      if 0 <=? e then v * 2 ^ e <=? x else v <=? x * 2 ^ (- e)
  end.

(** [Math.min(x, y)]: NaN when either argument is NaN; [-0] counts as
    below [+0]. *)
Definition Math_min (x y : number) : number :=
  if is_nan x || is_nan y then nan
  else if (x <? y)%float then x
  else if (y <? x)%float then y
  else if get_sign x then x else y.

(** Truthiness of an optional number: [undefined], [0], [-0] and NaN are
    falsy. *)
Definition truthy (fps : option number) : bool :=
  match fps with
  | Some x => negb (is_zero x || is_nan x)
  | None => false
  end.

Definition MAX_FPS : number := 60%float.

Definition MAX_FPS_DELAY : number := (1000 / MAX_FPS)%float.

(** ** Handlers and the five event lists *)

(** A handler is a function object; [indexOf] compares them by identity. *)
Definition Handler : Type := nat.

(** The array a subscription goes to: [animateEvents], [startEvents],
    [pauseEvents], [resumeEvents] or [stopEvents]. *)
Inductive EventList : Type := Animate | Start | Pause | Resume | Stop.

(** [events.indexOf(event)]: the first position of [event], or [-1]. *)
Fixpoint indexOf (event : Handler) (events : list Handler) : Z :=
  match events with
  | [] => -1
  | e :: rest =>
      if Nat.eqb e event then 0
      else let i := indexOf event rest in
           if i =? -1 then -1 else i + 1
  end.

(** [events.splice(index, 1)] for [0 <= index]: drops the entry at
    [index], and nothing when [index] is past the end. *)
Fixpoint splice1 (index : nat) (events : list Handler) : list Handler :=
  match events, index with
  | [], _ => []
  | _ :: rest, O => rest
  | e :: rest, S i => e :: splice1 i rest
  end.

(** ** The animator's fields *)

Module Params.
(** [AnimatorParams]: every member may be left out. *)
Record t : Type := mk {
  fps : option number;
  pauseOnHidden : option bool;
  resumeOnShown : option bool
}.

(** The default argument [{}]. *)
Definition empty : t := mk None None None.
End Params.

Record Animator : Type := mkAnimator {
  targetFPS : number;
  pauseOnHidden : bool;
  resumeOnShown : bool;
  ignoreTargetFPS : bool;
  performingFPS : number;
  startTime : Z;
  previousAnimateTime : Z;
  isPaused : bool;
  isPauseRequested : bool;
  animateEvents : list Handler;
  startEvents : list Handler;
  pauseEvents : list Handler;
  resumeEvents : list Handler;
  stopEvents : list Handler
}.

Definition set_targetFPS (v : number) (a : Animator) : Animator :=
  mkAnimator v (pauseOnHidden a) (resumeOnShown a) (ignoreTargetFPS a)
    (performingFPS a) (startTime a) (previousAnimateTime a) (isPaused a)
    (isPauseRequested a) (animateEvents a) (startEvents a) (pauseEvents a)
    (resumeEvents a) (stopEvents a).

Definition set_pauseOnHidden (v : bool) (a : Animator) : Animator :=
  mkAnimator (targetFPS a) v (resumeOnShown a) (ignoreTargetFPS a)
    (performingFPS a) (startTime a) (previousAnimateTime a) (isPaused a)
    (isPauseRequested a) (animateEvents a) (startEvents a) (pauseEvents a)
    (resumeEvents a) (stopEvents a).

Definition set_resumeOnShown (v : bool) (a : Animator) : Animator :=
  mkAnimator (targetFPS a) (pauseOnHidden a) v (ignoreTargetFPS a)
    (performingFPS a) (startTime a) (previousAnimateTime a) (isPaused a)
    (isPauseRequested a) (animateEvents a) (startEvents a) (pauseEvents a)
    (resumeEvents a) (stopEvents a).

Definition set_performingFPS (v : number) (a : Animator) : Animator :=
  mkAnimator (targetFPS a) (pauseOnHidden a) (resumeOnShown a)
    (ignoreTargetFPS a) v (startTime a) (previousAnimateTime a) (isPaused a)
    (isPauseRequested a) (animateEvents a) (startEvents a) (pauseEvents a)
    (resumeEvents a) (stopEvents a).

Definition set_startTime (v : Z) (a : Animator) : Animator :=
  mkAnimator (targetFPS a) (pauseOnHidden a) (resumeOnShown a)
    (ignoreTargetFPS a) (performingFPS a) v (previousAnimateTime a)
    (isPaused a) (isPauseRequested a) (animateEvents a) (startEvents a)
    (pauseEvents a) (resumeEvents a) (stopEvents a).

Definition set_previousAnimateTime (v : Z) (a : Animator) : Animator :=
  mkAnimator (targetFPS a) (pauseOnHidden a) (resumeOnShown a)
    (ignoreTargetFPS a) (performingFPS a) (startTime a) v (isPaused a)
    (isPauseRequested a) (animateEvents a) (startEvents a) (pauseEvents a)
    (resumeEvents a) (stopEvents a).

Definition set_isPaused (v : bool) (a : Animator) : Animator :=
  mkAnimator (targetFPS a) (pauseOnHidden a) (resumeOnShown a)
    (ignoreTargetFPS a) (performingFPS a) (startTime a)
    (previousAnimateTime a) v (isPauseRequested a) (animateEvents a)
    (startEvents a) (pauseEvents a) (resumeEvents a) (stopEvents a).

Definition set_isPauseRequested (v : bool) (a : Animator) : Animator :=
  mkAnimator (targetFPS a) (pauseOnHidden a) (resumeOnShown a)
    (ignoreTargetFPS a) (performingFPS a) (startTime a)
    (previousAnimateTime a) (isPaused a) v (animateEvents a)
    (startEvents a) (pauseEvents a) (resumeEvents a) (stopEvents a).

(** The array named by [l], and its replacement after a [push] or a
    [splice] (the arrays are mutated in place, never reassigned). *)
Definition events (l : EventList) (a : Animator) : list Handler :=
  match l with
  | Animate => animateEvents a
  | Start => startEvents a
  | Pause => pauseEvents a
  | Resume => resumeEvents a
  | Stop => stopEvents a
  end.

Definition set_events (l : EventList) (v : list Handler) (a : Animator)
  : Animator :=
  mkAnimator (targetFPS a) (pauseOnHidden a) (resumeOnShown a)
    (ignoreTargetFPS a) (performingFPS a) (startTime a)
    (previousAnimateTime a) (isPaused a) (isPauseRequested a)
    (match l with Animate => v | _ => animateEvents a end)
    (match l with Start => v | _ => startEvents a end)
    (match l with Pause => v | _ => pauseEvents a end)
    (match l with Resume => v | _ => resumeEvents a end)
    (match l with Stop => v | _ => stopEvents a end).

(** ** The host and the monad of the methods *)

(** What the page can observe of an animator. *)
Inductive Effect : Type :=
| Invoke (l : EventList) (event : Handler) (delta : option Z)
    (* a handler of the array [l] is called: [event(delta)] for the
       animate handlers, [event()] for the others *)
| RequestFrame.
    (* [this.requestAnimationFrame(() => this.animate())] *)

(** The wall clock: [clock n] is what the [n]-th call of [Date.now()]
    returns, [reads] the number of calls so far. *)
Record Host : Type := mkHost {
  clock : nat -> Z;
  reads : nat
}.

Record World : Type := mkWorld {
  this : Animator;
  host : Host
}.

(** A method: from a world to a result, the world after it, and what it
    made observable, in order. *)
Definition M (A : Type) : Type := World -> A * World * list Effect.

Definition ret {A : Type} (x : A) : M A := fun w => (x, w, []).

Definition bind {A B : Type} (m : M A) (k : A -> M B) : M B :=
  fun w =>
    let '(x, w1, out1) := m w in
    let '(y, w2, out2) := k x w1 in
    (y, w2, out1 ++ out2).

Declare Scope animator_scope.
Delimit Scope animator_scope with animator.

Notation "x <- m ;; k" := (bind m (fun x => k))
  (at level 100, m at next level, right associativity) : animator_scope.
Notation "m ;; k" := (bind m (fun _ => k))
  (at level 100, right associativity) : animator_scope.

Local Open Scope animator_scope.

Definition eval {A : Type} (m : M A) (w : World) : A := fst (fst (m w)).
Definition exec {A : Type} (m : M A) (w : World) : World := snd (fst (m w)).
Definition trace {A : Type} (m : M A) (w : World) : list Effect := snd (m w).

(** Reading and writing a field of [this]. *)
Definition get {A : Type} (field : Animator -> A) : M A :=
  fun w => (field (this w), w, []).

Definition update (f : Animator -> Animator) : M unit :=
  fun w => (tt, mkWorld (f (this w)) (host w), []).

(** [Date.now()]. *)
Definition Date_now : M Z :=
  fun w =>
    (clock (host w) (reads (host w)),
     mkWorld (this w) (mkHost (clock (host w)) (S (reads (host w)))),
     []).

Definition emit (e : Effect) : M unit := fun w => (tt, w, [e]).

(** [events.forEach(f)]. *)
Fixpoint forEach (evs : list Handler) (f : Handler -> M unit) : M unit :=
  match evs with
  | [] => ret tt
  | event :: rest => f event ;; forEach rest f
  end.

(** ** The class [Animator] *)

(** [constructor({ fps, pauseOnHidden = true, resumeOnShown = true } = {})].
    The entry pushed on [windowListeners] only forwards the two window
    events to [onShow] and [onHidden] of this animator, defined below. *)
Definition constructor (params : option Params.t) : Animator :=
  let p := match params with Some p => p | None => Params.empty end in
  let fps := Params.fps p in
  {| targetFPS := if truthy fps
                  then match fps with Some q => q | None => MAX_FPS end
                  else MAX_FPS;
     pauseOnHidden :=
       match Params.pauseOnHidden p with Some b => b | None => true end;
     resumeOnShown :=
       match Params.resumeOnShown p with Some b => b | None => true end;
     ignoreTargetFPS := negb (truthy fps);
     performingFPS := 0%float;
     startTime := 0;
     previousAnimateTime := 0;
     isPaused := false;
     isPauseRequested := false;
     animateEvents := [];
     startEvents := [];
     pauseEvents := [];
     resumeEvents := [];
     stopEvents := [] |}.

(** [removeEvent(event, events)]. *)
Definition removeEvent (event : Handler) (l : EventList) : M unit :=
  evs <- get (events l) ;;
  let index := indexOf event evs in
  if negb (index =? -1) then
    update (set_events l (splice1 (Z.to_nat index) evs))
  else ret tt.

(** [addEvent(event, events)]: pushes, and returns the closure
    [() => this.removeEvent(event, events)]. *)
Definition addEvent (event : Handler) (l : EventList) : M (M unit) :=
  evs <- get (events l) ;;
  update (set_events l (evs ++ [event])) ;;
  ret (removeEvent event l).

(** [this.requestAnimationFrame(() => this.animate())]: the host will run
    [animate] at the next frame. *)
Definition requestAnimationFrame : M unit := emit RequestFrame.

(** [animate()]. *)
Definition animate : M unit :=
  fps <- get targetFPS ;;
  paused <- get isPaused ;;
  started <- get startTime ;;
  if (0 <? fps)%float && negb paused && (0 <? started) then
    requestAnimationFrame ;;
    currentTime <- Date_now ;;
    previous <- get previousAnimateTime ;;
    let delta := currentTime - previous in
    let delay := (1000 / fps)%float in
    ignore <- get ignoreTargetFPS ;;
    if ignore || number_ge delta delay then
      update (set_performingFPS (1000 / number_of_Z delta)%float) ;;
      evs <- get animateEvents ;;
      forEach evs (fun event => emit (Invoke Animate event (Some delta))) ;;
      update (set_previousAnimateTime currentTime)
    else ret tt
  else ret tt.

(** [getPerformingFPS()]. *)
Definition getPerformingFPS : M number := get performingFPS.

(** [setTargetFPS(fps)]. *)
Definition setTargetFPS (fps : number) : M unit :=
  update (set_targetFPS (Math_min fps MAX_FPS)).

(** [add(animateEvent)]. *)
Definition add (animateEvent : Handler) : M (M unit) :=
  addEvent animateEvent Animate.

(** [setPauseOnHidden(pauseOnHidden)], [setResumeOnShown(resumeOnShown)]. *)
Definition setPauseOnHidden (b : bool) : M unit :=
  update (set_pauseOnHidden b).

Definition setResumeOnShown (b : bool) : M unit :=
  update (set_resumeOnShown b).

(** [start()]. *)
Definition start : M unit :=
  started <- get startTime ;;
  if started =? 0 then
    currentTime <- Date_now ;;
    update (set_startTime currentTime) ;;
    update (set_previousAnimateTime currentTime) ;;
    evs <- get startEvents ;;
    forEach evs (fun event => emit (Invoke Start event None)) ;;
    animate
  else ret tt.

(** [pause()]. *)
Definition pause : M unit :=
  started <- get startTime ;;
  paused <- get isPaused ;;
  if (0 <? started) && negb paused then
    update (set_isPaused true) ;;
    evs <- get pauseEvents ;;
    forEach evs (fun event => emit (Invoke Pause event None))
  else ret tt.

(** [resume()]. *)
Definition resume : M unit :=
  requested <- get isPauseRequested ;;
  paused <- get isPaused ;;
  if negb requested && paused then
    update (set_isPaused false) ;;
    evs <- get resumeEvents ;;
    forEach evs (fun event => emit (Invoke Resume event None)) ;;
    currentTime <- Date_now ;;
    update (set_previousAnimateTime currentTime) ;;
    animate
  else ret tt.

(** [stop()]. *)
Definition stop : M unit :=
  started <- get startTime ;;
  if 0 <? started then
    update (set_startTime 0) ;;
    update (set_isPaused false) ;;
    evs <- get stopEvents ;;
    forEach evs (fun event => emit (Invoke Stop event None))
  else ret tt.

(** [onStart], [onPause], [onResume], [onStop]. *)
Definition onStart (startEvent : Handler) : M (M unit) :=
  addEvent startEvent Start.
Definition onPause (pauseEvent : Handler) : M (M unit) :=
  addEvent pauseEvent Pause.
Definition onResume (resumeEvent : Handler) : M (M unit) :=
  addEvent resumeEvent Resume.
Definition onStop (stopEvent : Handler) : M (M unit) :=
  addEvent stopEvent Stop.

(** [onHidden()] and [onShow()], the private handlers that the window's
    "hidden" and "shown" broadcasts call on every animator. *)
Definition onHidden : M unit :=
  flag <- get pauseOnHidden ;;
  if flag then update (set_isPauseRequested true) ;; pause else ret tt.

Definition onShow : M unit :=
  flag <- get resumeOnShown ;;
  if flag then update (set_isPauseRequested false) ;; resume else ret tt.

(** [startAnimation(animateEvent, params)] on a page whose clock is
    [env]: the world of the new animator after [add] and [start]. *)
Definition startAnimation (animateEvent : Handler)
  (params : option Params.t) (env : Host) : unit * World * list Effect :=
  (add animateEvent ;; start) (mkWorld (constructor params) env).

(** ** What a caller, the window and the frame clock can do *)

(** [subscribe l] is the public method that pushes on the array [l]. *)
Definition subscribe (l : EventList) (event : Handler) : M (M unit) :=
  match l with
  | Animate => add event
  | Start => onStart event
  | Pause => onPause event
  | Resume => onResume event
  | Stop => onStop event
  end.

Inductive Op : Type :=
| OpStart | OpPause | OpResume | OpStop
| OpSetTargetFPS (fps : number)
| OpSetPauseOnHidden (b : bool)
| OpSetResumeOnShown (b : bool)
| OpGetPerformingFPS
| OpSubscribe (l : EventList) (event : Handler)
| OpUnsubscribe (l : EventList) (event : Handler)
    (* a closure returned by [subscribe l event] is called *)
| OpHidden | OpShown
    (* the window broadcasts "hidden" or "shown" *)
| OpFrame.
    (* the frame clock runs a requested callback, [animate] *)

Definition run (o : Op) : M unit :=
  match o with
  | OpStart => start
  | OpPause => pause
  | OpResume => resume
  | OpStop => stop
  | OpSetTargetFPS fps => setTargetFPS fps
  | OpSetPauseOnHidden b => setPauseOnHidden b
  | OpSetResumeOnShown b => setResumeOnShown b
  | OpGetPerformingFPS => getPerformingFPS ;; ret tt
  | OpSubscribe l event => subscribe l event ;; ret tt
  | OpUnsubscribe l event => removeEvent event l
  | OpHidden => onHidden
  | OpShown => onShow
  | OpFrame => animate
  end.

(** A whole session: the operations, one after the other. *)
Fixpoint runAll (ops : list Op) : M unit :=
  match ops with
  | [] => ret tt
  | o :: rest => run o ;; runAll rest
  end.

(** The operations a caller invokes on the object (the rows of the public
    interface), as opposed to what the window and the frame clock do. *)
Definition is_public (o : Op) : bool :=
  match o with
  | OpHidden | OpShown | OpFrame | OpUnsubscribe _ _ => false
  | _ => true
  end.

(** ** Readings of a world *)

(** What the next [Date.now()] returns, and the world after that call. *)
Definition now (w : World) : Z := clock (host w) (reads (host w)).

Definition after_read (w : World) : World :=
  mkWorld (this w) (mkHost (clock (host w)) (S (reads (host w)))).

Definition with_this (a : Animator) (w : World) : World :=
  mkWorld a (host w).

(** The lifecycle as the guards of the code read it. *)
Definition started (a : Animator) : Prop := 0 < startTime a.

Definition Running (a : Animator) : Prop :=
  (0 <? targetFPS a)%float = true /\ isPaused a = false /\ started a.

(** The throttle's test: the flag is set, or the time since the last fired
    tick reaches the double [1000 / targetFPS]. *)
Definition due (a : Animator) (delta : Z) : Prop :=
  ignoreTargetFPS a = true
  \/ number_ge delta (1000 / targetFPS a)%float = true.

(** The calls one firing pass over the array [l] makes. *)
Definition calls (l : EventList) (delta : option Z) (evs : list Handler)
  : list Effect :=
  map (fun event => Invoke l event delta) evs.

(** ** The lifecycle as the specification words it

    Three states, Stopped (initial), Running and Paused; [start] leads
    from Stopped to Running, [pause] from Running to Paused, [resume] from
    Paused to Running unless the pause was requested by the window, [stop]
    from Running or Paused to Stopped; a "hidden" broadcast sets the
    external request and pauses when [pauseOnHidden] holds, a "shown"
    broadcast clears it and resumes when [resumeOnShown] holds.  Nothing
    here is read off the code: the theorems below compare the two. *)
Module Lifecycle.

Inductive phase : Type := Stopped | Running | Paused.

Record t : Type := mk {
  state : phase;
  externallyPaused : bool;
  pauseOnHidden : bool;
  resumeOnShown : bool
}.

Definition init (params : option Params.t) : t :=
  let p := match params with Some p => p | None => Params.empty end in
  mk Stopped false
    (match Params.pauseOnHidden p with Some b => b | None => true end)
    (match Params.resumeOnShown p with Some b => b | None => true end).

Definition to (ph : phase) (s : t) : t :=
  mk ph (externallyPaused s) (pauseOnHidden s) (resumeOnShown s).

Definition request (b : bool) (s : t) : t :=
  mk (state s) b (pauseOnHidden s) (resumeOnShown s).

Definition start (s : t) : t :=
  match state s with Stopped => to Running s | _ => s end.

Definition pause (s : t) : t :=
  match state s with Running => to Paused s | _ => s end.

Definition resume (s : t) : t :=
  match state s with
  | Paused => if externallyPaused s then s else to Running s
  | _ => s
  end.

Definition stop (s : t) : t :=
  match state s with Stopped => s | _ => to Stopped s end.

Definition step (o : Op) (s : t) : t :=
  match o with
  | OpStart => start s
  | OpPause => pause s
  | OpResume => resume s
  | OpStop => stop s
  | OpHidden => if pauseOnHidden s then pause (request true s) else s
  | OpShown => if resumeOnShown s then resume (request false s) else s
  | OpSetPauseOnHidden b =>
      mk (state s) (externallyPaused s) b (resumeOnShown s)
  | OpSetResumeOnShown b =>
      mk (state s) (externallyPaused s) (pauseOnHidden s) b
  | _ => s
  end.

Fixpoint steps (ops : list Op) (s : t) : t :=
  match ops with
  | [] => s
  | o :: rest => steps rest (step o s)
  end.

End Lifecycle.

(** The state of the specification that the fields of an animator stand
    for: [startTime] doubles as the "is started" flag. *)
Definition lifecycle (a : Animator) : Lifecycle.t :=
  Lifecycle.mk
    (if startTime a =? 0 then Lifecycle.Stopped
     else if isPaused a then Lifecycle.Paused else Lifecycle.Running)
    (isPauseRequested a) (pauseOnHidden a) (resumeOnShown a).

(** What the fields satisfy between two calls. *)
Definition consistent (a : Animator) : Prop :=
  0 <= startTime a /\ (isPaused a = true -> 0 < startTime a).

(** Every reading of the clock is after the epoch. *)
Definition clock_positive (env : Host) : Prop :=
  forall n, 0 < clock env n.

(** ** Sample pages, for the concrete runs below *)

(** A page whose [Date.now()] returns [readings] one after the other and
    [last] from then on. *)
Definition page (readings : list Z) (last : Z) : Host :=
  mkHost (fun n => nth n readings last) 0.

(** [{ fps }]. *)
Definition with_fps (fps : number) : option Params.t :=
  Some (Params.mk (Some fps) None None).

(** The world [startAnimation(7, { fps: 30 })] leaves at time 1000 when the
    next reading of the clock is [1000 + d]. *)
Definition started_at_30 (d : Z) : World :=
  snd (fst (startAnimation 7%nat (with_fps 30) (page [1000; 1000] (1000 + d)))).

(** The world [startAnimation(7, { fps: 1000 / 17 })] leaves at time 1000
    when the next reading of the clock is 1017.  The double [1000 / 17] is
    a little below the exact quotient, and dividing 1000 by it gives the
    double 17 back. *)
Definition started_at_period_17 : World :=
  snd (fst (startAnimation 7%nat (with_fps (1000 / 17))
              (page [1000; 1000] 1017))).

(** A session that goes through every state: subscribe, start, a frame,
    the window is hidden, an explicit [resume()], the window is shown
    again, [stop()]. *)
Definition sample_session : list Op :=
  [OpSubscribe Animate 7%nat; OpStart; OpFrame; OpHidden; OpResume; OpShown;
   OpStop].

(** [new Animator()] at time 1000, before anything is called on it. *)
Definition fresh : World := mkWorld (constructor None) (page [] 1000).

(** An animator that is running with handler 7 subscribed to its pause
    event. *)
Definition pause_watched : World :=
  exec (runAll [OpSubscribe Pause 7%nat; OpStart]) fresh.

(** A paused animator with handler 7 subscribed to its resume event: paused
    by [pause()], and paused by the window being hidden. *)
Definition paused_by_caller : World :=
  exec (runAll [OpSubscribe Resume 7%nat; OpStart; OpPause]) fresh.

Definition paused_by_window : World :=
  exec (runAll [OpSubscribe Resume 7%nat; OpStart; OpHidden]) fresh.

(** A paused animator whose target rate was set to 0 while it ran: the
    frame that [start()] requested has run after [pause()], and requested
    nothing. *)
Definition paused_at_zero_rate : World :=
  exec (runAll [OpSubscribe Resume 7%nat; OpStart; OpSetTargetFPS 0;
                OpPause; OpFrame]) fresh.

(** The operations for which a second call in a row does nothing: all but
    the subscriptions, the closures they return, and the frames. *)
Definition repeatable (o : Op) : bool :=
  match o with
  | OpSubscribe _ _ | OpUnsubscribe _ _ | OpFrame => false
  | _ => true
  end.

(** The animator of [started_at_30 34] after [setTargetFPS(0)]. *)
Definition rate_zeroed : World := exec (setTargetFPS 0) (started_at_30 34).

(** [new Animator()] started at time 1000 with one frame subscriber, then
    given a target with [setTargetFPS(30)]; the next reading of the clock
    is 1001. *)
Definition uncapped_then_30 : World :=
  exec (setTargetFPS 30)
    (snd (fst (startAnimation 7%nat None (page [1000; 1000] 1001)))).

(** How many times [event] is called in an output. *)
Fixpoint invocations (event : Handler) (out : list Effect) : nat :=
  match out with
  | [] => 0
  | Invoke _ e _ :: rest =>
      if Nat.eqb e event then S (invocations event rest)
      else invocations event rest
  | RequestFrame :: rest => invocations event rest
  end.

(** ** The frame clock

    A frame request makes the host run [animate] once, later; nothing in
    the class ever cancels a request.  A session as the host sees it keeps
    the count of the requests that are outstanding: [OpFrame] uses one up,
    and cannot run when there is none. *)

(** The frame requests in an output. *)
Fixpoint requested (out : list Effect) : nat :=
  match out with
  | [] => 0
  | RequestFrame :: rest => S (requested rest)
  | Invoke _ _ _ :: rest => requested rest
  end.

Fixpoint drive (ops : list Op) (pending : nat) (w : World)
  : option (nat * World) :=
  match ops with
  | [] => Some (pending, w)
  | OpFrame :: rest =>
      match pending with
      | O => None
      | S p => drive rest (p + requested (trace animate w)) (exec animate w)
      end
  | o :: rest =>
      drive rest (pending + requested (trace (run o) w)) (exec (run o) w)
  end.

(** Every rate a session passes to [setTargetFPS] is positive. *)
Definition positive_rates (ops : list Op) : Prop :=
  forall fps, In (OpSetTargetFPS fps) ops -> (0 <? fps)%float = true.

(** Every rate a session passes to [setTargetFPS] is a number, not NaN. *)
Definition numeric_rates (ops : list Op) : Prop :=
  forall fps, In (OpSetTargetFPS fps) ops -> is_nan fps = false.

(** No call of the session sets [resumeOnShown]. *)
Definition keeps_resumeOnShown (ops : list Op) : Prop :=
  forall b, ~ In (OpSetResumeOnShown b) ops.

(** What a session keeps true of the animator and of the count of
    outstanding requests. *)
Definition chain_alive (pending : nat) (w : World) : Prop :=
  (0 <? targetFPS (this w))%float = true
  /\ consistent (this w)
  /\ clock_positive (host w)
  /\ (started (this w) -> isPaused (this w) = false -> (1 <= pending)%nat).

(** ** The calls of the four lifecycle events *)

(** The calls of start, pause, resume and stop handlers in an output. *)
Definition lifecycle_calls (out : list Effect) : list Effect :=
  filter (fun e => match e with
                   | Invoke Animate _ _ | RequestFrame => false
                   | Invoke _ _ _ => true
                   end) out.

(** The calls of frame handlers in an output. *)
Definition frame_calls (out : list Effect) : list Effect :=
  filter (fun e => match e with
                   | Invoke Animate _ _ => true
                   | _ => false
                   end) out.

(** The event that goes with a change of state of the lifecycle. *)
Definition transition (s s' : Lifecycle.phase) : option EventList :=
  match s, s' with
  | Lifecycle.Stopped, Lifecycle.Running => Some Start
  | Lifecycle.Running, Lifecycle.Paused => Some Pause
  | Lifecycle.Paused, Lifecycle.Running => Some Resume
  | Lifecycle.Running, Lifecycle.Stopped
  | Lifecycle.Paused, Lifecycle.Stopped => Some Stop
  | _, _ => None
  end.

(** ** The window and its listeners

    [windowListeners] holds one pair [{ onShow, onHidden }] per animator
    ever constructed, in order of construction, and each pair calls
    [onShow()] and [onHidden()] of its own animator.  A page is the
    animators behind the listeners and the clock they share; what a
    broadcast makes observable is tagged with the position of the animator
    that did it. *)
Record Page : Type := mkPage {
  windowListeners : list Animator;
  pageHost : Host
}.

(** [new Animator(params)] on a page: the new listener goes last. *)
Definition new_Animator (params : option Params.t) (p : Page) : Page :=
  mkPage (windowListeners p ++ [constructor params]) (pageHost p).

(** [for (const listener of windowListeners) listener()], the listener
    being [onHidden] or [onShow] of each animator in turn; [i] is the
    position of the first animator of [todo]. *)
Fixpoint each_listener (listener : M unit) (i : nat) (todo : list Animator)
  (env : Host) : list Animator * Host * list (nat * Effect) :=
  match todo with
  | [] => ([], env, [])
  | a :: rest =>
      let '(_, w, out) := listener (mkWorld a env) in
      let '(rest', env', out') := each_listener listener (S i) rest (host w) in
      (this w :: rest', env', map (pair i) out ++ out')
  end.

Definition onWindowHidden (p : Page) : Page * list (nat * Effect) :=
  let '(l, env, out) := each_listener onHidden 0 (windowListeners p)
                          (pageHost p) in
  (mkPage l env, out).

Definition onWindowShow (p : Page) : Page * list (nat * Effect) :=
  let '(l, env, out) := each_listener onShow 0 (windowListeners p)
                          (pageHost p) in
  (mkPage l env, out).

Definition onWindowChange (isWindowHidden : bool) (p : Page)
  : Page * list (nat * Effect) :=
  if isWindowHidden then onWindowHidden p else onWindowShow p.

(** The events the module listens to, with the value of [document.hidden]
    (or its prefixed variant) at the time of a visibility change. *)
Inductive DomEvent : Type :=
| visibilitychange (hidden : bool)
| mozvisibilitychange (mozHidden : bool)
| webkitvisibilitychange (webkitHidden : bool)
| msvisibilitychange (msHidden : bool)
| focusin | focusout
| pageshow | focus | pagehide | blur.

Definition dispatch (e : DomEvent) (p : Page) : Page * list (nat * Effect) :=
  match e with
  | visibilitychange hidden => onWindowChange hidden p
  | mozvisibilitychange mozHidden => onWindowChange mozHidden p
  | webkitvisibilitychange webkitHidden => onWindowChange webkitHidden p
  | msvisibilitychange msHidden => onWindowChange msHidden p
  | focusin => onWindowShow p
  | focusout => onWindowHidden p
  | pageshow | focus => onWindowShow p
  | pagehide | blur => onWindowHidden p
  end.

(** Whether an event reports the page as hidden. *)
Definition reports_hidden (e : DomEvent) : bool :=
  match e with
  | visibilitychange b | mozvisibilitychange b
  | webkitvisibilitychange b | msvisibilitychange b => b
  | focusout | pagehide | blur => true
  | focusin | pageshow | focus => false
  end.

(** What [onHidden()] makes of an animator: held by the window when
    [pauseOnHidden] is on, and paused if it was started and running. *)
Definition hidden (a : Animator) : Animator :=
  if pauseOnHidden a then
    if (0 <? startTime a) && negb (isPaused a)
    then set_isPaused true (set_isPauseRequested true a)
    else set_isPauseRequested true a
  else a.

(** The pause calls of the animators of a page that [onHidden()] pauses,
    tagged with their positions from [i] on. *)
Fixpoint hidden_calls (i : nat) (l : list Animator) : list (nat * Effect) :=
  match l with
  | [] => []
  | a :: rest =>
      (if pauseOnHidden a && ((0 <? startTime a) && negb (isPaused a))
       then map (pair i) (calls Pause None (pauseEvents a))
       else [])
      ++ hidden_calls (S i) rest
  end.

(** A listener that has nothing left to do on an animator, whatever the
    clock shows. *)
Definition settled (listener : M unit) (a : Animator) : Prop :=
  forall env, listener (mkWorld a env) = (tt, mkWorld a env, []).

(** ** More sample runs *)

(** A page with two animators, the first running with handler 7 on its
    pause event and handler 8 on its resume event, the second never
    started. *)
Definition two_animators : Page :=
  mkPage
    [this (exec (runAll [OpSubscribe Pause 7%nat; OpSubscribe Resume 8%nat;
                         OpStart]) fresh);
     constructor None]
    (page [] 2000).

(** [{ resumeOnShown: false }] started, then hidden by the window. *)
Definition hidden_for_good : World :=
  exec (runAll [OpSubscribe Resume 7%nat; OpStart; OpHidden])
    (mkWorld (constructor (Some (Params.mk None None (Some false))))
       (page [] 1000)).

(** [n] calls of the same method in a row. *)
Fixpoint times (n : nat) (m : M unit) : M unit :=
  match n with
  | O => ret tt
  | S k => m ;; times k m
  end.

(** ** Numbers: the comparisons of doubles *)

(** The comparison the three tests of doubles are specified with. *)
Lemma SFcompare_antisym (x y : spec_float) :
  SFcompare y x = option_map CompOpp (SFcompare x y).
Proof.
  destruct x as [sx|sx| |sx mx ex], y as [sy|sy| |sy my ey];
    try destruct sx; try destruct sy; try reflexivity; simpl;
    rewrite (Z.compare_antisym ex ey);
    destruct (ex ?= ey)%Z; simpl; try reflexivity;
    rewrite (Pos.compare_cont_antisym mx my Eq); simpl;
    destruct (Pos.compare_cont Eq mx my); reflexivity.
Qed.

Lemma SFcompare_refl (x : spec_float) :
  x <> S754_nan -> SFcompare x x = Some Eq.
Proof.
  intro H. destruct x as [s|s| |s m e]; try destruct s; try reflexivity;
    try congruence; simpl; rewrite Z.compare_refl;
    rewrite (Pos.compare_cont_refl m Eq); reflexivity.
Qed.

Lemma SFcompare_None (x y : spec_float) :
  SFcompare x y = None -> x = S754_nan \/ y = S754_nan.
Proof.
  destruct x as [sx|sx| |sx mx ex], y as [sy|sy| |sy my ey]; simpl; auto;
    try destruct sx; try destruct sy; try discriminate;
    destruct (ex ?= ey)%Z; discriminate.
Qed.

(** [is_nan] tells NaN from the doubles that compare. *)
Lemma is_nan_false (x : number) :
  is_nan x = false <-> Prim2SF x <> S754_nan.
Proof.
  unfold is_nan. rewrite eqb_spec. unfold SFeqb. split.
  - intros H E. rewrite E in H. discriminate.
  - intro H. rewrite (SFcompare_refl _ H). reflexivity.
Qed.

Lemma compared_is_not_nan (x y : number) (c : comparison) :
  SFcompare (Prim2SF x) (Prim2SF y) = Some c ->
  is_nan x = false /\ is_nan y = false.
Proof.
  intro H. split; apply is_nan_false; intro E; rewrite E in H;
    [|destruct (Prim2SF x) as [| | |[]]]; discriminate.
Qed.

Lemma not_nan_compared (x y : number) :
  is_nan x = false -> is_nan y = false ->
  exists c, SFcompare (Prim2SF x) (Prim2SF y) = Some c.
Proof.
  intros Hx Hy. apply is_nan_false in Hx, Hy.
  destruct (SFcompare (Prim2SF x) (Prim2SF y)) as [c|] eqn:E; [eauto|].
  destruct (SFcompare_None _ _ E); contradiction.
Qed.

(** A rate that is zero or negative is not positive. *)
Lemma nonpositive_not_positive (x : number) :
  (x <=? 0)%float = true -> (0 <? x)%float = false.
Proof.
  rewrite leb_spec, ltb_spec. unfold SFleb, SFltb.
  rewrite (SFcompare_antisym (Prim2SF x) (Prim2SF 0)).
  destruct (SFcompare (Prim2SF x) (Prim2SF 0)) as [[]|];
    simpl; congruence.
Qed.

(** A negative rate is truthy, and not positive. *)
Lemma negative_truthy (x : number) :
  (x <? 0)%float = true ->
  truthy (Some x) = true /\ (0 <? x)%float = false.
Proof.
  intro H. assert (H' := H). rewrite ltb_spec in H'. unfold SFltb in H'.
  destruct (SFcompare (Prim2SF x) (Prim2SF 0)) as [c|] eqn:E;
    [|discriminate].
  destruct (compared_is_not_nan _ _ _ E) as [N _].
  unfold truthy, is_zero. rewrite N, eqb_spec, ltb_spec.
  unfold SFeqb, SFltb. change (Prim2SF zero) with (Prim2SF 0).
  rewrite (SFcompare_antisym (Prim2SF x) (Prim2SF 0)), E.
  destruct c; try discriminate. split; reflexivity.
Qed.

(** A positive rate is truthy. *)
Lemma positive_truthy (x : number) :
  (0 <? x)%float = true -> truthy (Some x) = true.
Proof.
  intro H. rewrite ltb_spec in H. unfold SFltb in H.
  destruct (SFcompare (Prim2SF 0) (Prim2SF x)) as [c|] eqn:E;
    [|discriminate].
  destruct (compared_is_not_nan _ _ _ E) as [_ N].
  unfold truthy, is_zero. rewrite N, eqb_spec. unfold SFeqb.
  change (Prim2SF zero) with (Prim2SF 0).
  rewrite (SFcompare_antisym (Prim2SF 0) (Prim2SF x)), E.
  destruct c; try discriminate. reflexivity.
Qed.

(** [Math.min(x, MAX_FPS)] is [x] or [MAX_FPS] when [x] is not NaN, and
    NaN when it is. *)
Lemma Math_min_cases (x : number) :
  is_nan x = false ->
  (Math_min x MAX_FPS = x /\ (x <=? MAX_FPS)%float = true)
  \/ Math_min x MAX_FPS = MAX_FPS.
Proof.
  intro N. unfold Math_min. rewrite N.
  change (is_nan MAX_FPS) with false. cbv [orb].
  destruct (not_nan_compared x MAX_FPS N eq_refl) as [c E].
  rewrite leb_spec, !ltb_spec. unfold SFleb, SFltb.
  rewrite (SFcompare_antisym (Prim2SF x) (Prim2SF MAX_FPS)), E.
  destruct c; simpl; auto. destruct (get_sign x); auto.
Qed.

Lemma Math_min_nan (y : number) : Math_min nan y = nan.
Proof. reflexivity. Qed.

(** [Math.min(x, MAX_FPS)] is at most [MAX_FPS], unless [x] is NaN. *)
Lemma Math_min_le_max (x : number) :
  is_nan x = false -> (Math_min x MAX_FPS <=? MAX_FPS)%float = true.
Proof.
  intro N. destruct (Math_min_cases x N) as [[E L]|E]; rewrite E;
    [exact L | reflexivity].
Qed.

(** At 30 frames per second the throttle opens at 34 ms: the double
    [1000 / 30] is [4691249611844267 / 2 ^ 47], strictly between 33 and
    34. *)
Lemma period_30 :
  Prim2SF (1000 / 30) = S754_finite false 4691249611844267 (-47).
Proof. vm_compute. reflexivity. Qed.

(** ** Numbers: a difference of timestamps against a double *)

(** The number of binary digits of a mantissa. *)
Lemma digits2_pos_bounds (p : positive) :
  2 ^ (Z.pos (digits2_pos p) - 1) <= Z.pos p < 2 ^ Z.pos (digits2_pos p).
Proof.
  induction p as [p IH|p IH|]; cbn [digits2_pos];
    rewrite ?Pos2Z.inj_succ;
    try (replace (Z.succ (Z.pos (digits2_pos p)) - 1)
           with (Z.succ (Z.pos (digits2_pos p) - 1)) by lia;
         rewrite !Z.pow_succ_r by lia; lia).
  simpl. lia.
Qed.

Lemma digits2_pos_shift (p d : positive) :
  digits2_pos (Pos.iter xO p d) = (digits2_pos p + d)%positive
  /\ Z.pos (Pos.iter xO p d) = Z.pos p * 2 ^ Z.pos d.
Proof.
  induction d as [|d IH] using Pos.peano_ind.
  - simpl. split; [symmetry; apply Pos.add_1_r|lia].
  - rewrite Pos.iter_succ. cbn [digits2_pos]. destruct IH as [IH1 IH2].
    rewrite IH1, Pos2Z.inj_succ, Z.pow_succ_r by lia.
    split; [lia|]. rewrite Pos2Z.inj_xO, IH2. lia.
Qed.

(** A mantissa of 53 digits with an exponent in range is its own
    rounding. *)
Lemma binary_round_aux_canonical (s : bool) (m : positive) (e : Z) :
  Z.pos (digits2_pos m) = 53 -> -1074 <= e <= 971 ->
  binary_round_aux prec emax s (Z.pos m) e loc_Exact = S754_finite s m e.
Proof.
  intros D R. unfold binary_round_aux, shr_fexp.
  cbn [Zdigits2 shr_record_of_loc].
  rewrite D.
  replace (fexp prec emax (53 + e) - e) with 0
    by (unfold fexp, emin, prec, emax; lia).
  cbn [shr shr_m loc_of_shr_record round_nearest_even Zdigits2
       shr_record_of_loc].
  rewrite D.
  replace (fexp prec emax (53 + e) - e) with 0
    by (unfold fexp, emin, prec, emax; lia).
  cbn [shr shr_m].
  replace (e <=? emax - prec) with true
    by (symmetry; apply Z.leb_le; unfold prec, emax; lia).
  reflexivity.
Qed.

(** The double of an integer below 2^53 holds that integer: its mantissa is
    the integer shifted to 53 digits. *)
Lemma binary_round_integer (s : bool) (p : positive) :
  Z.pos p < 2 ^ 53 ->
  exists m e,
    binary_round prec emax s p 0 = S754_finite s m e
    /\ Z.pos (digits2_pos m) = 53
    /\ -52 <= e <= 0
    /\ Z.pos m = Z.pos p * 2 ^ (- e).
Proof.
  intro H. pose proof (digits2_pos_bounds p) as B.
  assert (N : Z.pos (digits2_pos p) <= 53).
  { destruct (Z.le_gt_cases (Z.pos (digits2_pos p)) 53) as [L|L]; [exact L|].
    assert (2 ^ 53 <= 2 ^ (Z.pos (digits2_pos p) - 1))
      by (apply Z.pow_le_mono_r; lia).
    lia. }
  unfold binary_round.
  replace (fexp prec emax (Z.pos (digits2_pos p) + 0))
    with (Z.pos (digits2_pos p) - 53)
    by (unfold fexp, emin, prec, emax; lia).
  unfold shl_align. rewrite Z.sub_0_r.
  destruct (Z.pos (digits2_pos p) - 53) as [|q|q] eqn:E; try lia.
  - exists p, 0. rewrite binary_round_aux_canonical by lia.
    split; [reflexivity|]. split; [lia|]. split; [lia|]. simpl. lia.
  - destruct (digits2_pos_shift p q) as [D1 D2].
    exists (Pos.iter xO p q), (Z.neg q).
    rewrite binary_round_aux_canonical by (rewrite ?D1; lia).
    split; [reflexivity|]. split; [rewrite D1; lia|]. split; [lia|].
    rewrite D2. reflexivity.
Qed.

Lemma Prim2SF_number_of_Z (d : Z) :
  - 2 ^ 53 < d < 2 ^ 53 ->
  (d = 0 /\ Prim2SF (number_of_Z d) = S754_zero false)
  \/ exists m e,
       Prim2SF (number_of_Z d) = S754_finite (d <? 0) m e
       /\ Z.pos (digits2_pos m) = 53
       /\ -52 <= e <= 0
       /\ Z.pos m = Z.abs d * 2 ^ (- e).
Proof.
  intro H. unfold number_of_Z. destruct d as [|p|p].
  - left. split; reflexivity.
  - right. destruct (binary_round_integer false p) as (m & e & E & D & R & V);
      [lia|].
    exists m, e. cbn [binary_normalize]. rewrite E.
    rewrite Prim2SF_SF2Prim.
    + repeat split; try assumption; lia.
    + unfold valid_binary, bounded, canonical_mantissa. rewrite D.
      apply andb_true_iff. split; [apply Z.eqb_eq|apply Z.leb_le];
        unfold fexp, emin, prec, emax; lia.
  - right. destruct (binary_round_integer true p) as (m & e & E & D & R & V);
      [lia|].
    exists m, e. cbn [binary_normalize]. rewrite E.
    rewrite Prim2SF_SF2Prim.
    + repeat split; try assumption; lia.
    + unfold valid_binary, bounded, canonical_mantissa. rewrite D.
      apply andb_true_iff. split; [apply Z.eqb_eq|apply Z.leb_le];
        unfold fexp, emin, prec, emax; lia.
Qed.

(** What the kernel guarantees of the mantissa and exponent of a finite
    double. *)
Lemma bounded_canonical (m : positive) (e : Z) :
  bounded prec emax m e = true ->
  -1074 <= e <= 971
  /\ Z.pos m < 2 ^ 53
  /\ (-1074 < e -> 2 ^ 52 <= Z.pos m).
Proof.
  unfold bounded, canonical_mantissa. rewrite andb_true_iff, Z.eqb_eq, Z.leb_le.
  unfold fexp, emin, prec, emax. intros [C L].
  pose proof (digits2_pos_bounds m) as [B1 B2].
  split; [lia|]. split.
  - apply (Z.lt_le_trans _ _ _ B2). apply Z.pow_le_mono_r; lia.
  - intro G. replace (Z.pos (digits2_pos m)) with 53 in B1 by lia. exact B1.
Qed.

(** The order of two finite doubles of the same sign is the order of their
    mantissas once both are scaled to the smallest exponent. *)
Lemma compare_scaled (m1 m2 : positive) (e1 e2 : Z) :
  -1074 <= e1 -> Z.pos m1 < 2 ^ 53 -> (-1074 < e1 -> 2 ^ 52 <= Z.pos m1) ->
  -1074 <= e2 -> Z.pos m2 < 2 ^ 53 -> (-1074 < e2 -> 2 ^ 52 <= Z.pos m2) ->
  match e1 ?= e2 with
  | Lt => Lt
  | Gt => Gt
  | Eq => Pos.compare_cont Eq m1 m2
  end
  = (Z.pos m1 * 2 ^ (e1 + 1074) ?= Z.pos m2 * 2 ^ (e2 + 1074)).
Proof.
  intros L1 U1 N1 L2 U2 N2.
  assert (P : forall a b, -1074 <= a < b ->
              2 * 2 ^ (a + 1074) <= 2 ^ (b + 1074)).
  { intros a b Hab. rewrite <- Z.pow_succ_r by lia.
    apply Z.pow_le_mono_r; lia. }
  assert (Q : forall a, -1074 <= a -> 0 < 2 ^ (a + 1074))
    by (intros a Ha; apply Z.pow_pos_nonneg; lia).
  change (2 ^ 53) with (2 * 2 ^ 52) in U1, U2.
  set (h := 2 ^ 52) in *.
  destruct (Z.compare_spec e1 e2) as [E|E|E]; symmetry.
  - subst e2. specialize (Q e1 L1).
    rewrite <- Zmult_compare_compat_r by lia. reflexivity.
  - apply Z.compare_lt_iff. specialize (N2 ltac:(lia)).
    specialize (P e1 e2 ltac:(lia)). specialize (Q e1 L1).
    set (A := 2 ^ (e1 + 1074)) in *. set (B := 2 ^ (e2 + 1074)) in *.
    apply Z.lt_le_trans with (2 * h * A); [nia|].
    apply Z.le_trans with (h * B); nia.
  - apply Z.compare_gt_iff. specialize (N1 ltac:(lia)).
    specialize (P e2 e1 ltac:(lia)). specialize (Q e2 L2).
    set (A := 2 ^ (e2 + 1074)) in *. set (B := 2 ^ (e1 + 1074)) in *.
    apply Z.lt_le_trans with (2 * h * A); [nia|].
    apply Z.le_trans with (h * B); nia.
Qed.

(** The test of [number_ge] on a finite double, scaled likewise. *)
Lemma ge_scaled (v d e : Z) :
  -1074 <= e ->
  (if 0 <=? e then v * 2 ^ e <=? d else v <=? d * 2 ^ (- e))
  = (v * 2 ^ (e + 1074) <=? d * 2 ^ 1074).
Proof.
  intro L. assert (P : 0 < 2 ^ 1074) by (apply Z.pow_pos_nonneg; lia).
  destruct (Z.leb_spec 0 e) as [G|G].
  - rewrite Z.pow_add_r by lia. set (h := 2 ^ 1074) in *.
    rewrite Z.mul_assoc.
    destruct (Z.leb_spec (v * 2 ^ e) d) as [A|A];
      destruct (Z.leb_spec (v * 2 ^ e * h) (d * h)) as [B|B];
      try reflexivity; nia.
  - replace (2 ^ 1074) with (2 ^ (- e) * 2 ^ (e + 1074)) in *
      by (rewrite <- Z.pow_add_r by lia; f_equal; lia).
    assert (Q : 0 < 2 ^ (e + 1074)) by (apply Z.pow_pos_nonneg; lia).
    set (h := 2 ^ (e + 1074)) in *. set (k := 2 ^ (- e)) in *.
    rewrite Z.mul_assoc.
    destruct (Z.leb_spec v (d * k)) as [A|A];
      destruct (Z.leb_spec (v * h) (d * k * h)) as [B|B];
      try reflexivity; nia.
Qed.

(** [number_ge] is the comparison of doubles: for a difference of
    timestamps below 2^53 in magnitude, which a double holds, it is the
    kernel's [<=?] between the delay and the double of the difference. *)
Lemma number_ge_leb (d : Z) (y : number) :
  - 2 ^ 53 < d < 2 ^ 53 ->
  number_ge d y = (y <=? number_of_Z d)%float.
Proof.
  intro H. rewrite leb_spec. unfold number_ge, SFleb.
  pose proof (Prim2SF_valid y) as Vy.
  destruct (Prim2SF_number_of_Z d H) as [[D E]|(m & e & E & Dm & Re & Vm)];
    rewrite E; clear E.
  - subst d. destruct (Prim2SF y) as [s|s| |s my ey]; cbn [SFcompare];
      try (destruct s; reflexivity); try reflexivity.
    assert (P : 0 < 2 ^ ey \/ ey < 0).
    { destruct (Z.le_gt_cases 0 ey); [left; apply Z.pow_pos_nonneg; lia|
                                      right; lia]. }
    destruct s; destruct (Z.leb_spec 0 ey);
      match goal with |- (?a <=? ?b) = _ => destruct (Z.leb_spec a b) end;
      try reflexivity; nia.
  - destruct (Prim2SF y) as [s|s| |s my ey]; cbn [SFcompare].
    + destruct (Z.leb_spec 0 d), (Z.ltb_spec d 0); try reflexivity; lia.
    + destruct s; reflexivity.
    + reflexivity.
    + destruct (bounded_canonical my ey Vy) as (Ly & Uy & Ny).
      assert (Ux : Z.pos m < 2 ^ 53).
      { pose proof (digits2_pos_bounds m) as [_ B]. rewrite Dm in B.
        exact B. }
      assert (Nx : 2 ^ 52 <= Z.pos m).
      { pose proof (digits2_pos_bounds m) as [B _]. rewrite Dm in B.
        exact B. }
      rewrite ge_scaled by apply Ly.
      assert (S : Z.pos m * 2 ^ (e + 1074) = Z.abs d * 2 ^ 1074).
      { rewrite Vm, <- Z.mul_assoc, <- Z.pow_add_r by lia.
        f_equal. f_equal. lia. }
      pose proof (compare_scaled my m ey e (proj1 Ly) Uy Ny ltac:(lia) Ux
                    ltac:(intros _; exact Nx)) as C.
      assert (Py : 0 < Z.pos my * 2 ^ (ey + 1074))
        by (apply Z.mul_pos_pos; [lia|apply Z.pow_pos_nonneg; lia]).
      assert (P : 0 < 2 ^ 1074) by (apply Z.pow_pos_nonneg; lia).
      rewrite S in C. set (h := 2 ^ 1074) in *.
      set (vy := Z.pos my * 2 ^ (ey + 1074)) in *.
      destruct s, (Z.ltb_spec d 0) as [Hd|Hd].
      * replace (Z.neg my * 2 ^ (ey + 1074)) with (- vy) by (unfold vy; lia).
        destruct (ey ?= e); try rewrite C;
          destruct (Z.compare_spec vy (Z.abs d * h)) as [F|F|F];
          cbn [CompOpp];
          match goal with |- (?a <=? ?b) = _ => destruct (Z.leb_spec a b) end;
          try reflexivity; try discriminate C; nia.
      * replace (Z.neg my * 2 ^ (ey + 1074)) with (- vy) by (unfold vy; lia).
        match goal with |- (?a <=? ?b) = _ => destruct (Z.leb_spec a b) end;
          try reflexivity; nia.
      * match goal with |- (?a <=? ?b) = _ => destruct (Z.leb_spec a b) end;
          try reflexivity; nia.
      * destruct (ey ?= e); try rewrite C;
          destruct (Z.compare_spec vy (Z.abs d * h)) as [F|F|F];
          match goal with |- (?a <=? ?b) = _ => destruct (Z.leb_spec a b) end;
          try reflexivity; try discriminate C; nia.
Qed.

(** ** The monad: how the methods unfold *)

Lemma forEach_emit (f : Handler -> Effect) (evs : list Handler) (w : World) :
  forEach evs (fun event => emit (f event)) w = (tt, w, map f evs).
Proof.
  induction evs as [|e evs IH]; simpl; [reflexivity|].
  unfold bind. change (emit (f e) w) with (tt, w, [f e]).
  cbv beta iota. rewrite IH. reflexivity.
Qed.

(** [animate] outside the guard: nothing happens. *)
Lemma animate_idle (w : World) :
  (0 <? targetFPS (this w))%float && negb (isPaused (this w))
    && (0 <? startTime (this w)) = false ->
  animate w = (tt, w, []).
Proof.
  intro G. unfold animate, bind, get, ret. simpl. rewrite G. reflexivity.
Qed.

(** [animate] inside the guard. *)
Lemma animate_active (w : World) :
  (0 <? targetFPS (this w))%float && negb (isPaused (this w))
    && (0 <? startTime (this w)) = true ->
  let a := this w in
  let delta := now w - previousAnimateTime a in
  animate w =
    if ignoreTargetFPS a
       || number_ge delta (1000 / targetFPS a)%float
    then (tt,
          with_this
            (set_previousAnimateTime (now w)
               (set_performingFPS (1000 / number_of_Z delta)%float a))
            (after_read w),
          RequestFrame :: calls Animate (Some delta) (animateEvents a))
    else (tt, after_read w, [RequestFrame]).
Proof.
  intro G. unfold animate, bind, get. simpl. rewrite G.
  unfold requestAnimationFrame, Date_now, bind, get, update. simpl.
  fold (now w).
  destruct (ignoreTargetFPS (this w)
            || number_ge (now w - previousAnimateTime (this w))
                 (1000 / targetFPS (this w))%float); simpl.
  - rewrite forEach_emit. simpl. rewrite app_nil_r. reflexivity.
  - reflexivity.
Qed.

Lemma Running_guard (a : Animator) :
  Running a <->
  (0 <? targetFPS a)%float && negb (isPaused a) && (0 <? startTime a) = true.
Proof.
  unfold Running, started.
  rewrite !andb_true_iff, negb_true_iff, Z.ltb_lt. tauto.
Qed.

Lemma due_guard (a : Animator) (delta : Z) :
  due a delta <->
  ignoreTargetFPS a || number_ge delta (1000 / targetFPS a)%float = true.
Proof.
  unfold due. rewrite orb_true_iff. tauto.
Qed.

(** [start()] on a stopped animator, and on any other. *)
Lemma start_stopped (w : World) :
  startTime (this w) = 0 ->
  let w1 := with_this
              (set_previousAnimateTime (now w)
                 (set_startTime (now w) (this w)))
              (after_read w) in
  start w = (tt, exec animate w1,
             calls Start None (startEvents (this w)) ++ trace animate w1).
Proof.
  intros H w1. unfold start, bind at 1, get at 1. simpl. rewrite H. simpl.
  unfold bind, Date_now, update, get. simpl. rewrite forEach_emit.
  fold (now w). unfold w1, exec, trace, with_this, after_read, calls. simpl.
  destruct (animate _) as [[[] w2] out]. reflexivity.
Qed.

Lemma start_not_stopped (w : World) :
  startTime (this w) <> 0 -> start w = (tt, w, []).
Proof.
  intro H. unfold start, bind, get. simpl.
  apply Z.eqb_neq in H. rewrite H. reflexivity.
Qed.

(** [pause()]. *)
Lemma pause_run (w : World) :
  pause w =
    if (0 <? startTime (this w)) && negb (isPaused (this w))
    then (tt, with_this (set_isPaused true (this w)) w,
          calls Pause None (pauseEvents (this w)))
    else (tt, w, []).
Proof.
  unfold pause, bind at 1 2, get at 1 2. simpl.
  destruct ((0 <? startTime (this w)) && negb (isPaused (this w)));
    [|reflexivity].
  unfold bind, update, get. simpl. rewrite forEach_emit. reflexivity.
Qed.

(** [resume()] when it goes through, and when it does not. *)
Lemma resume_paused (w : World) :
  isPauseRequested (this w) = false ->
  isPaused (this w) = true ->
  let w1 := with_this
              (set_previousAnimateTime (now w)
                 (set_isPaused false (this w)))
              (after_read w) in
  resume w = (tt, exec animate w1,
              calls Resume None (resumeEvents (this w)) ++ trace animate w1).
Proof.
  intros R P w1. unfold resume, bind at 1 2, get at 1 2. simpl.
  rewrite R, P. simpl.
  unfold bind, Date_now, update, get. simpl. rewrite forEach_emit.
  fold (now w). unfold w1, exec, trace, with_this, after_read, calls. simpl.
  destruct (animate _) as [[[] w2] out]. reflexivity.
Qed.

Lemma resume_idle (w : World) :
  negb (isPauseRequested (this w)) && isPaused (this w) = false ->
  resume w = (tt, w, []).
Proof.
  intro G. unfold resume, bind, get. simpl. rewrite G. reflexivity.
Qed.

(** [stop()]. *)
Lemma stop_run (w : World) :
  stop w =
    if 0 <? startTime (this w)
    then (tt, with_this (set_isPaused false (set_startTime 0 (this w))) w,
          calls Stop None (stopEvents (this w)))
    else (tt, w, []).
Proof.
  unfold stop, bind at 1, get at 1. simpl.
  destruct (0 <? startTime (this w)); [|reflexivity].
  unfold bind, update, get. simpl. rewrite forEach_emit. reflexivity.
Qed.

(** The window handlers. *)
Lemma onHidden_run (w : World) :
  onHidden w =
    if pauseOnHidden (this w)
    then pause (with_this (set_isPauseRequested true (this w)) w)
    else (tt, w, []).
Proof.
  unfold onHidden, bind at 1, get at 1. simpl.
  destruct (pauseOnHidden (this w)); [|reflexivity].
  unfold bind at 1, update, with_this. simpl.
  destruct (pause _) as [[[] w2] out]. reflexivity.
Qed.

Lemma onShow_run (w : World) :
  onShow w =
    if resumeOnShown (this w)
    then resume (with_this (set_isPauseRequested false (this w)) w)
    else (tt, w, []).
Proof.
  unfold onShow, bind at 1, get at 1. simpl.
  destruct (resumeOnShown (this w)); [|reflexivity].
  unfold bind at 1, update, with_this. simpl.
  destruct (resume _) as [[[] w2] out]. reflexivity.
Qed.

(** Subscribing and unsubscribing. *)
Lemma addEvent_run (event : Handler) (l : EventList) (w : World) :
  addEvent event l w =
    (removeEvent event l,
     with_this (set_events l (events l (this w) ++ [event]) (this w)) w,
     []).
Proof. reflexivity. Qed.

Lemma subscribe_run (l : EventList) (event : Handler) :
  subscribe l event = addEvent event l.
Proof. destruct l; reflexivity. Qed.

Lemma removeEvent_run (event : Handler) (l : EventList) (w : World) :
  removeEvent event l w =
    if indexOf event (events l (this w)) =? -1
    then (tt, w, [])
    else (tt,
          with_this
            (set_events l
               (splice1 (Z.to_nat (indexOf event (events l (this w))))
                  (events l (this w)))
               (this w)) w,
          []).
Proof.
  unfold removeEvent, bind, get. simpl.
  destruct (indexOf event (events l (this w)) =? -1); reflexivity.
Qed.

(** * The frame throttle *)

Lemma In_calls (l : EventList) (delta : option Z) (evs : list Handler)
  (e : Effect) :
  In e (calls l delta evs) <-> exists event, e = Invoke l event delta /\ In event evs.
Proof.
  unfold calls. rewrite in_map_iff. split; intros [x [H1 H2]]; eauto.
Qed.

(** C1. On a tick of a Running animator (started, not paused, positive
    target rate), with [delta] the time since [previousAnimateTime]: every
    frame subscriber is called iff [ignoreTargetFPS] is set or
    [delta >= 1000 / targetFPS], the quotient being the double that the
    division of doubles gives.  When the test holds, the tick requests
    the next frame, sets [performingFPS] to [1000 / delta], calls the frame
    subscribers in registration order with [delta] and sets
    [previousAnimateTime] to the current time, changing nothing else; when
    it fails, the tick only requests the next frame and leaves
    [previousAnimateTime] (and every other field) as it was.  For a
    [delta] below 2^53 in magnitude, as any difference of two time values
    is, the test is the comparison of doubles [1000 / targetFPS <= delta]
    on the double that holds [delta]. *)
Theorem animate_fires_iff_due (w : World) :
  Running (this w) ->
  let a := this w in
  let delta := now w - previousAnimateTime a in
  let a' := this (exec animate w) in
  (forall event, In event (animateEvents a) ->
     (In (Invoke Animate event (Some delta)) (trace animate w)
      <-> due a delta))
  /\ (due a delta ->
      performingFPS a' = (1000 / number_of_Z delta)%float
      /\ trace animate w
         = RequestFrame :: calls Animate (Some delta) (animateEvents a)
      /\ previousAnimateTime a' = now w
      /\ a' = set_previousAnimateTime (now w)
                (set_performingFPS (1000 / number_of_Z delta)%float a))
  /\ (~ due a delta ->
      trace animate w = [RequestFrame]
      /\ previousAnimateTime a' = previousAnimateTime a
      /\ a' = a)
  /\ (- 2 ^ 53 < delta < 2 ^ 53 ->
      (due a delta
       <-> ignoreTargetFPS a = true
           \/ (1000 / targetFPS a <=? number_of_Z delta)%float = true)).
Proof.
  intros R a delta a'.
  assert (L : - 2 ^ 53 < delta < 2 ^ 53 ->
              (due a delta
               <-> ignoreTargetFPS a = true
                   \/ (1000 / targetFPS a <=? number_of_Z delta)%float
                      = true)).
  { intro B. unfold due. rewrite (number_ge_leb delta _ B). tauto. }
  assert (G := proj1 (Running_guard _) R).
  assert (D := due_guard a delta).
  pose proof (animate_active w G) as E. cbv zeta in E.
  fold a in E. fold delta in E.
  unfold a', exec, trace. rewrite E. clear E.
  destruct (ignoreTargetFPS a
            || number_ge delta (1000 / targetFPS a)%float)
    eqn:B; simpl.
  - assert (Hd : due a delta) by (apply D; reflexivity).
    repeat split; try reflexivity; try tauto.
    intros _. right. apply In_calls. eauto.
  - assert (Hn : ~ due a delta) by (rewrite D; discriminate).
    repeat split; try reflexivity; try tauto.
    intros [F|[]]. discriminate.
Qed.

Lemma animate_fires_iff_due_witness :
  Running (this started_at_period_17)
  /\ (1000 / targetFPS (this started_at_period_17))%float = 17%float
  /\ due (this started_at_period_17) 17
  /\ trace animate started_at_period_17
     = [RequestFrame; Invoke Animate 7%nat (Some 17)]
  /\ previousAnimateTime (this (exec animate started_at_period_17)) = 1017.
Proof.
  assert (R : Running (this started_at_period_17)).
  { unfold Running, started. repeat split. }
  assert (D : due (this started_at_period_17) 17).
  { right. reflexivity. }
  destruct (animate_fires_iff_due started_at_period_17 R) as [_ [F _]].
  destruct (F D) as [_ [T [P _]]].
  repeat split; assumption.
Defined.

(** C3, as amended. When the target rate is zero or negative, a tick fires
    no subscriber and does not request the next frame either: it leaves the
    animator, its lifecycle flags included, exactly as it was, so the chain
    of ticks ends there. *)
Theorem animate_nonpositive_rate_idle (w : World) :
  (targetFPS (this w) <=? 0)%float = true ->
  trace animate w = [] /\ exec animate w = w.
Proof.
  intro H. unfold trace, exec. rewrite animate_idle; [split; reflexivity|].
  rewrite (nonpositive_not_positive _ H). reflexivity.
Qed.

Lemma animate_nonpositive_rate_idle_witness :
  (targetFPS (this rate_zeroed) <=? 0)%float = true
  /\ trace animate rate_zeroed = []
  /\ exec animate rate_zeroed = rate_zeroed.
Proof.
  assert (H : (targetFPS (this rate_zeroed) <=? 0)%float = true)
    by reflexivity.
  split; [exact H|]. exact (animate_nonpositive_rate_idle rate_zeroed H).
Defined.

(** C3, as stated, fails: an animator that is started and not paused, and
    whose target rate was set to 0, requests no frame on its tick. *)
Lemma animate_zero_rate_requests_nothing :
  (targetFPS (this rate_zeroed) <=? 0)%float = true
  /\ isPaused (this rate_zeroed) = false
  /\ started (this rate_zeroed)
  /\ ~ In RequestFrame (trace animate rate_zeroed).
Proof.
  repeat split. vm_compute. intros [].
Qed.

(** * The target rate *)

Lemma setTargetFPS_run (fps : number) (w : World) :
  setTargetFPS fps w
  = (tt, with_this (set_targetFPS (Math_min fps MAX_FPS) (this w)) w, []).
Proof. reflexivity. Qed.

(** [setTargetFPS] clamps: the rate it stores is at most [MAX_FPS], for
    any rate but NaN, which it stores as it is. *)
Lemma setTargetFPS_le_max (fps : number) (w : World) :
  is_nan fps = false ->
  (targetFPS (this (exec (setTargetFPS fps) w)) <=? MAX_FPS)%float = true.
Proof. apply Math_min_le_max. Qed.

(** [setTargetFPS] leaves the flag [ignoreTargetFPS] as it finds it. *)
Lemma setTargetFPS_ignoreTargetFPS (fps : number) (w : World) :
  ignoreTargetFPS (this (exec (setTargetFPS fps) w))
  = ignoreTargetFPS (this w).
Proof. reflexivity. Qed.

(** C2, the constructor: [new Animator({ fps: 120 })] stores 120 as its
    target rate, above the maximum of 60 that [setTargetFPS] enforces (the
    compiled [dist/index.js] has [Math.min(fps, MAX_FPS)] in the
    constructor as well). *)
Lemma constructor_keeps_fps_above_max :
  targetFPS (constructor (with_fps 120)) = 120%float
  /\ (targetFPS (constructor (with_fps 120)) <=? MAX_FPS)%float = false.
Proof. split; reflexivity. Qed.

(** C4, the flag: after [new Animator()], [start()] and
    [setTargetFPS(30)], the target rate is 30 but [ignoreTargetFPS] is
    still set, and a tick 1 ms after the start calls the frame subscriber
    although 1 ms is less than [1000 / 30] (the compiled [dist/index.js]
    has [this.ignoreTargetFPS = false] in [setTargetFPS]). *)
Lemma setTargetFPS_leaves_rate_cap_ignored :
  targetFPS (this uncapped_then_30) = 30%float
  /\ ignoreTargetFPS (this uncapped_then_30) = true
  /\ now uncapped_then_30 - previousAnimateTime (this uncapped_then_30) = 1
  /\ trace animate uncapped_then_30
     = [RequestFrame; Invoke Animate 7%nat (Some 1)].
Proof. repeat split. Qed.

(** C10. [new Animator({ fps: 0 })] is the animator [new Animator({})]
    builds from the same two other options: its target rate is 60 and
    [ignoreTargetFPS] is set.  So on an animator with that rate and that
    flag, every tick taken while it is started and not paused requests the
    next frame and calls every frame subscriber, whatever time elapsed. *)
Theorem constructor_fps_zero_is_uncapped (onHide onShown : option bool) :
  let a0 := constructor (Some (Params.mk (Some 0%float) onHide onShown)) in
  a0 = constructor (Some (Params.mk None onHide onShown))
  /\ targetFPS a0 = MAX_FPS
  /\ ignoreTargetFPS a0 = true
  /\ forall w : World,
       targetFPS (this w) = targetFPS a0 ->
       ignoreTargetFPS (this w) = ignoreTargetFPS a0 ->
       isPaused (this w) = false ->
       started (this w) ->
       trace animate w
       = RequestFrame
         :: calls Animate (Some (now w - previousAnimateTime (this w)))
              (animateEvents (this w)).
Proof.
  intro a0. repeat split.
  intros w HF HI HP HS. simpl in HF, HI.
  assert (G : (0 <? targetFPS (this w))%float && negb (isPaused (this w))
              && (0 <? startTime (this w)) = true).
  { rewrite HF, HP. simpl. apply Z.ltb_lt. exact HS. }
  unfold trace. rewrite (animate_active w G). rewrite HI. reflexivity.
Qed.

Lemma constructor_fps_zero_is_uncapped_witness :
  trace animate
    (snd (fst (startAnimation 7%nat (with_fps 0) (page [1000; 1000] 1001))))
  = [RequestFrame; Invoke Animate 7%nat (Some 1)].
Proof.
  destruct (constructor_fps_zero_is_uncapped None None) as [_ [_ [_ F]]].
  apply (F (snd (fst (startAnimation 7%nat (with_fps 0)
                        (page [1000; 1000] 1001))))).
  - reflexivity.
  - reflexivity.
  - reflexivity.
  - reflexivity.
Defined.

(** * [startAnimation] *)

Lemma startAnimation_run (animateEvent : Handler) (params : option Params.t)
  (env : Host) :
  startAnimation animateEvent params env
  = start (with_this
             (set_events Animate
                (animateEvents (constructor params) ++ [animateEvent])
                (constructor params))
             (mkWorld (constructor params) env)).
Proof.
  unfold startAnimation, add, bind. rewrite addEvent_run.
  destruct (start _) as [[[] w2] out]. reflexivity.
Qed.

(** At 30 frames per second the throttle opens at 34 ms. *)
Lemma delay_30 (d : Z) :
  number_ge d (1000 / 30)%float = (34 <=? d).
Proof.
  unfold number_ge. rewrite period_30. cbv beta iota zeta.
  change (0 <=? -47) with false. cbv iota.
  change (2 ^ (- -47)) with 140737488355328.
  destruct (Z.leb_spec 34 d);
    destruct (Z.leb_spec 4691249611844267 (d * 140737488355328));
    try reflexivity; lia.
Qed.

(** [startAnimation(h, { fps: 30 })] at time [T], then one tick [d] ms
    later: what the two calls make observable. *)
Lemma startAnimation_30_run (h : Handler) (T d : Z) :
  0 < T ->
  let r := startAnimation h (with_fps 30) (page [T; T] (T + d)) in
  snd r = [RequestFrame]
  /\ trace animate (snd (fst r))
     = if 34 <=? d then [RequestFrame; Invoke Animate h (Some d)]
       else [RequestFrame].
Proof.
  intros HT r. unfold r. rewrite startAnimation_run.
  rewrite start_stopped by reflexivity. cbv zeta.
  match goal with |- context [exec animate ?w] => set (w1 := w) end.
  assert (G : (0 <? targetFPS (this w1))%float && negb (isPaused (this w1))
              && (0 <? startTime (this w1)) = true).
  { simpl. apply Z.ltb_lt. exact HT. }
  assert (E1 : animate w1 = (tt, after_read w1, [RequestFrame])).
  { rewrite (animate_active w1 G).
    replace (now w1 - previousAnimateTime (this w1)) with 0
      by (unfold w1, now; simpl; lia).
    reflexivity. }
  unfold exec, trace. rewrite E1. cbn [fst snd].
  split; [reflexivity|].
  rewrite (animate_active (after_read w1) G).
  replace (now (after_read w1) - previousAnimateTime (this (after_read w1)))
    with d by (unfold w1, now; simpl; lia).
  change (targetFPS (this (after_read w1))) with 30%float.
  rewrite delay_30. change (ignoreTargetFPS (this (after_read w1))) with false.
  simpl. destruct (34 <=? d); reflexivity.
Qed.

(** C7, as amended. After [startAnimation(h, { fps: 30 })] at a time
    [T > 0], one tick that runs [d] ms later calls [h] exactly once, with
    delta [d], when [d] is at least 34 (the first whole number of ms that
    reaches [1000 / 30]); when [d] is 33 or less it does not call [h]. *)
Theorem startAnimation_30_then_tick (h : Handler) (T d : Z) :
  0 < T ->
  let r := startAnimation h (with_fps 30) (page [T; T] (T + d)) in
  let out := snd r ++ trace animate (snd (fst r)) in
  (34 <= d ->
   out = [RequestFrame; RequestFrame; Invoke Animate h (Some d)]
   /\ invocations h out = 1%nat)
  /\ (d <= 33 -> invocations h out = 0%nat).
Proof.
  intros HT r out.
  destruct (startAnimation_30_run h T d HT) as [E1 E2].
  unfold out, r. rewrite E1, E2. split; intro H.
  - apply Z.leb_le in H. rewrite H. simpl. rewrite Nat.eqb_refl. now split.
  - assert (L : (34 <=? d) = false) by (apply Z.leb_gt; lia).
    rewrite L. reflexivity.
Qed.

Lemma startAnimation_30_then_tick_witness :
  let r := startAnimation 7%nat (with_fps 30) (page [1000; 1000] 1034) in
  snd r ++ trace animate (snd (fst r))
  = [RequestFrame; RequestFrame; Invoke Animate 7%nat (Some 34)].
Proof.
  assert (HT : 0 < 1000) by lia.
  destruct (startAnimation_30_then_tick 7%nat 1000 34 HT) as [F _].
  apply F. lia.
Defined.

(** C7, as stated, fails: 33 ms after [startAnimation(7, { fps: 30 })] the
    tick does not call the handler, because 33 < 1000 / 30. *)
Lemma startAnimation_30_tick_at_33_is_skipped :
  let r := startAnimation 7%nat (with_fps 30) (page [1000; 1000] 1033) in
  now (snd (fst r)) - previousAnimateTime (this (snd (fst r))) = 33
  /\ snd r ++ trace animate (snd (fst r)) = [RequestFrame; RequestFrame]
  /\ invocations 7%nat (snd r ++ trace animate (snd (fst r))) <> 1%nat.
Proof.
  repeat split. vm_compute. discriminate.
Qed.

(** * The lifecycle *)

(** A tick touches [performingFPS], [previousAnimateTime] and the count of
    clock readings, and nothing else. *)
Lemma animate_frame (w : World) :
  let a := this w in
  let a' := this (exec animate w) in
  startTime a' = startTime a
  /\ isPaused a' = isPaused a
  /\ isPauseRequested a' = isPauseRequested a
  /\ pauseOnHidden a' = pauseOnHidden a
  /\ resumeOnShown a' = resumeOnShown a
  /\ targetFPS a' = targetFPS a
  /\ ignoreTargetFPS a' = ignoreTargetFPS a
  /\ (forall l, events l a' = events l a)
  /\ clock (host (exec animate w)) = clock (host w).
Proof.
  intros a a'. unfold a', a, exec.
  destruct ((0 <? targetFPS (this w))%float && negb (isPaused (this w))
            && (0 <? startTime (this w))) eqn:G.
  - rewrite (animate_active w G).
    destruct (ignoreTargetFPS (this w) || _); simpl;
      repeat split; intros []; reflexivity.
  - rewrite (animate_idle w G). simpl. repeat split.
Qed.

Lemma animate_lifecycle (w : World) :
  lifecycle (this (exec animate w)) = lifecycle (this w).
Proof.
  destruct (animate_frame w) as (H1 & H2 & H3 & H4 & H5 & _).
  unfold lifecycle. now rewrite H1, H2, H3, H4, H5.
Qed.

Lemma animate_consistent (w : World) :
  consistent (this w) -> consistent (this (exec animate w)).
Proof.
  destruct (animate_frame w) as (H1 & H2 & _).
  unfold consistent. now rewrite H1, H2.
Qed.

Lemma animate_clock (w : World) :
  clock (host (exec animate w)) = clock (host w).
Proof. apply animate_frame. Qed.

(** No operation changes the clock of the page. *)
Lemma run_clock (o : Op) (w : World) :
  clock (host (exec (run o) w)) = clock (host w).
Proof.
  destruct o; simpl run.
  - unfold exec at 1. destruct (Z.eq_dec (startTime (this w)) 0) as [E|E].
    + rewrite (start_stopped w E). cbv zeta. simpl. now rewrite animate_clock.
    + now rewrite (start_not_stopped w E).
  - unfold exec. rewrite pause_run. now destruct (_ && _).
  - unfold exec at 1.
    destruct (negb (isPauseRequested (this w)) && isPaused (this w)) eqn:G.
    + apply andb_true_iff in G as [R P]. apply negb_true_iff in R.
      rewrite (resume_paused w R P). cbv zeta. simpl.
      now rewrite animate_clock.
    + now rewrite (resume_idle w G).
  - unfold exec. rewrite stop_run. now destruct (0 <? _).
  - reflexivity.
  - reflexivity.
  - reflexivity.
  - reflexivity.
  - rewrite subscribe_run. reflexivity.
  - unfold exec. rewrite removeEvent_run. now destruct (_ =? _).
  - unfold exec. rewrite onHidden_run.
    destruct (pauseOnHidden (this w)); [|reflexivity].
    rewrite pause_run. now destruct (_ && _).
  - unfold exec at 1. rewrite onShow_run.
    destruct (resumeOnShown (this w)); [|reflexivity].
    set (w0 := with_this _ w).
    destruct (negb (isPauseRequested (this w0)) && isPaused (this w0)) eqn:G.
    + apply andb_true_iff in G as [R P]. apply negb_true_iff in R.
      rewrite (resume_paused w0 R P). cbv zeta. simpl.
      now rewrite animate_clock.
    + now rewrite (resume_idle w0 G).
  - apply animate_clock.
Qed.

(** Settles a goal about the lifecycle of an updated record by cases on
    the tests met in it. *)
Ltac by_guards :=
  unfold lifecycle, consistent, Lifecycle.step, Lifecycle.start,
    Lifecycle.pause, Lifecycle.resume, Lifecycle.stop, Lifecycle.to,
    Lifecycle.request;
  simpl;
  repeat (match goal with
          | |- context [?x <? ?y] => destruct (Z.ltb_spec x y)
          | |- context [isPaused (this ?w)] =>
              is_var w; destruct (isPaused (this w)) eqn:?
          | |- context [?x =? ?y] => destruct (Z.eqb_spec x y)
          end; simpl);
  repeat match goal with
         | H : isPauseRequested _ = _ |- _ => rewrite ?H; clear H
         | H : pauseOnHidden _ = _ |- _ => rewrite ?H; clear H
         | H : resumeOnShown _ = _ |- _ => rewrite ?H; clear H
         end;
  simpl;
  repeat split; intros; try reflexivity; try congruence; try lia;
  try (intuition (congruence || lia)).

Lemma run_refines (o : Op) (w : World) :
  clock_positive (host w) ->
  consistent (this w) ->
  lifecycle (this (exec (run o) w)) = Lifecycle.step o (lifecycle (this w))
  /\ consistent (this (exec (run o) w)).
Proof.
  intros C I. pose proof (C (reads (host w))) as Hn. fold (now w) in Hn.
  destruct o; simpl run.
  - (* start *)
    destruct (Z.eq_dec (startTime (this w)) 0) as [E|E].
    + unfold exec at 1 2. rewrite (start_stopped w E). cbv zeta. cbn [fst snd].
      rewrite animate_lifecycle. split; [|apply animate_consistent].
      * destruct I. by_guards.
      * destruct I. by_guards.
    + unfold exec. rewrite (start_not_stopped w E). destruct I. by_guards.
  - (* pause *)
    unfold exec. rewrite pause_run. destruct I. by_guards.
  - (* resume *)
    destruct (negb (isPauseRequested (this w)) && isPaused (this w)) eqn:G.
    + apply andb_true_iff in G as [R P]. apply negb_true_iff in R.
      unfold exec at 1 2. rewrite (resume_paused w R P). cbv zeta. cbn [fst snd].
      rewrite animate_lifecycle. split; [|apply animate_consistent].
      * destruct I. by_guards.
      * destruct I. by_guards.
    + unfold exec. rewrite (resume_idle w G). destruct I.
      cbn [fst snd]. destruct (isPauseRequested (this w)) eqn:R; by_guards.
  - (* stop *)
    unfold exec. rewrite stop_run. destruct I. by_guards.
  - destruct I. unfold exec. by_guards.
  - destruct I. unfold exec. by_guards.
  - destruct I. unfold exec. by_guards.
  - destruct I. unfold exec. by_guards.
  - rewrite subscribe_run. destruct I. unfold exec. destruct l; by_guards.
  - unfold exec. rewrite removeEvent_run. destruct I.
    destruct (indexOf _ _ =? -1); destruct l; by_guards.
  - (* hidden *)
    unfold exec. rewrite onHidden_run.
    destruct (pauseOnHidden (this w)) eqn:F.
    + rewrite pause_run. destruct I. by_guards.
    + destruct I. by_guards.
  - (* shown *)
    unfold exec at 1 2. rewrite onShow_run.
    destruct (resumeOnShown (this w)) eqn:F.
    + set (w0 := with_this _ w).
      destruct (isPaused (this w0)) eqn:P.
      * assert (R : isPauseRequested (this w0) = false) by reflexivity.
        rewrite (resume_paused w0 R P). cbv zeta. cbn [fst snd].
        rewrite animate_lifecycle. split; [|apply animate_consistent].
        -- destruct I. unfold w0 in *. by_guards.
        -- destruct I. unfold w0 in *. by_guards.
      * rewrite (resume_idle w0) by (rewrite P; apply andb_false_r).
        destruct I. unfold w0 in *. simpl in P. cbn [fst snd]. by_guards.
    + destruct I. by_guards.
  - (* frame *)
    rewrite animate_lifecycle. split; [reflexivity|].
    now apply animate_consistent.
Qed.

Lemma exec_bind {A B : Type} (m : M A) (k : A -> M B) (w : World) :
  exec (bind m k) w = exec (k (eval m w)) (exec m w).
Proof.
  unfold exec, eval, bind. destruct (m w) as [[x w1] out1].
  simpl. destruct (k x w1) as [[y w2] out2]. reflexivity.
Qed.

(** The code follows the state machine of the specification along any
    session. *)
Lemma runAll_refines (ops : list Op) (w : World) :
  clock_positive (host w) ->
  consistent (this w) ->
  lifecycle (this (exec (runAll ops) w))
  = Lifecycle.steps ops (lifecycle (this w))
  /\ consistent (this (exec (runAll ops) w)).
Proof.
  revert w. induction ops as [|o ops IH]; intros w C I.
  - split; [reflexivity|exact I].
  - simpl runAll. rewrite exec_bind.
    destruct (run_refines o w C I) as [L I'].
    assert (C' : clock_positive (host (exec (run o) w))).
    { intro n. rewrite run_clock. apply C. }
    destruct (IH _ C' I') as [L2 I2]. split; [|exact I2].
    rewrite L2, L. reflexivity.
Qed.

Lemma constructor_lifecycle (params : option Params.t) :
  lifecycle (constructor params) = Lifecycle.init params.
Proof. destruct params as [[f p r]|]; reflexivity. Qed.

Lemma constructor_consistent (params : option Params.t) :
  consistent (constructor params).
Proof. split; simpl; [lia|discriminate]. Qed.

(** C6. After any sequence of public operations, window broadcasts and
    frames run on a new animator (with a clock that reads after the epoch),
    and with [s] the state the specification's lifecycle machine reaches on
    the same sequence: [startTime] is 0 exactly when [s] is Stopped; while
    Stopped a tick calls no subscriber, requests no frame and changes
    nothing; [isPaused] is set only while [startTime] is not 0; and the
    fields stand for [s]. *)
Theorem lifecycle_invariants (params : option Params.t) (env : Host)
  (ops : list Op) :
  clock_positive env ->
  let w := exec (runAll ops) (mkWorld (constructor params) env) in
  let s := Lifecycle.steps ops (Lifecycle.init params) in
  (startTime (this w) = 0 <-> Lifecycle.state s = Lifecycle.Stopped)
  /\ (Lifecycle.state s = Lifecycle.Stopped ->
      trace animate w = [] /\ exec animate w = w)
  /\ (isPaused (this w) = true -> startTime (this w) <> 0)
  /\ lifecycle (this w) = s.
Proof.
  intros C w s.
  destruct (runAll_refines ops (mkWorld (constructor params) env) C
              (constructor_consistent params)) as [L [I1 I2]].
  simpl this in L. rewrite constructor_lifecycle in L.
  fold w in L, I1, I2. fold s in L.
  assert (Z0 : startTime (this w) = 0 <-> Lifecycle.state s = Lifecycle.Stopped).
  { rewrite <- L. unfold lifecycle. simpl.
    destruct (Z.eqb_spec (startTime (this w)) 0) as [E|E].
    - tauto.
    - destruct (isPaused (this w)); split; intro; try contradiction;
        discriminate. }
  repeat split.
  - apply Z0.
  - apply Z0.
  - unfold trace. rewrite animate_idle; [reflexivity|].
    apply Z0 in H. rewrite H. apply andb_false_r.
  - unfold exec. rewrite animate_idle; [reflexivity|].
    apply Z0 in H. rewrite H. apply andb_false_r.
  - intros P E. specialize (I2 P). lia.
  - exact L.
Qed.

Lemma lifecycle_invariants_witness :
  clock_positive (page [] 1000)
  /\ Lifecycle.state (Lifecycle.steps sample_session (Lifecycle.init None))
     = Lifecycle.Stopped
  /\ startTime
       (this (exec (runAll sample_session)
                (mkWorld (constructor None) (page [] 1000)))) = 0.
Proof.
  assert (C : clock_positive (page [] 1000)).
  { intro n. simpl. destruct n as [|n]; [|destruct n]; reflexivity. }
  destruct (lifecycle_invariants None (page [] 1000) sample_session C)
    as [Z0 _].
  split; [exact C|]. split; [reflexivity|]. apply Z0. reflexivity.
Defined.

(** * Subscribing and unsubscribing *)

Lemma indexOf_lower (event : Handler) (evs : list Handler) :
  -1 <= indexOf event evs.
Proof.
  induction evs as [|e evs IH]; simpl; [lia|].
  destruct (Nat.eqb e event); [lia|].
  destruct (Z.eqb_spec (indexOf event evs) (-1)); lia.
Qed.

Lemma indexOf_absent (event : Handler) (evs : list Handler) :
  ~ In event evs -> indexOf event evs = -1.
Proof.
  induction evs as [|e evs IH]; simpl; intro H; [reflexivity|].
  destruct (Nat.eqb_spec e event) as [E|E]; [tauto|].
  rewrite IH by tauto. reflexivity.
Qed.

Lemma indexOf_present (event : Handler) (evs : list Handler) :
  In event evs -> indexOf event evs <> -1.
Proof.
  induction evs as [|e evs IH]; simpl; intro H; [contradiction|].
  destruct (Nat.eqb_spec e event) as [E|E]; [lia|].
  destruct H as [H|H]; [contradiction|].
  specialize (IH H). destruct (Z.eqb_spec (indexOf event evs) (-1)); [lia|].
  pose proof (indexOf_lower event evs). lia.
Qed.

Lemma indexOf_pushed (event : Handler) (evs : list Handler) :
  ~ In event evs ->
  indexOf event (evs ++ [event]) = Z.of_nat (length evs).
Proof.
  induction evs as [|e evs IH]; simpl; intro H.
  - now rewrite Nat.eqb_refl.
  - destruct (Nat.eqb_spec e event) as [E|E]; [tauto|].
    rewrite IH by tauto.
    destruct (Z.eqb_spec (Z.of_nat (length evs)) (-1)); lia.
Qed.

Lemma splice1_pushed (event : Handler) (evs : list Handler) :
  splice1 (length evs) (evs ++ [event]) = evs.
Proof.
  induction evs as [|e evs IH]; simpl; [reflexivity|]. now rewrite IH.
Qed.

Lemma events_set_events (l : EventList) (v : list Handler) (a : Animator) :
  events l (set_events l v a) = v.
Proof. destruct l; reflexivity. Qed.

Lemma set_events_twice (l : EventList) (u v : list Handler) (a : Animator) :
  set_events l v (set_events l u a) = set_events l v a.
Proof. destruct l; reflexivity. Qed.

Lemma set_events_same (l : EventList) (a : Animator) :
  set_events l (events l a) a = a.
Proof. destruct a, l; reflexivity. Qed.

Lemma with_this_same (w : World) : with_this (this w) w = w.
Proof. destruct w; reflexivity. Qed.

(** Removing a handler that is not in the array changes nothing. *)
Lemma removeEvent_absent (event : Handler) (l : EventList) (w : World) :
  ~ In event (events l (this w)) -> removeEvent event l w = (tt, w, []).
Proof.
  intro H. rewrite removeEvent_run, (indexOf_absent _ _ H). reflexivity.
Qed.

(** The calls a tick makes are calls of the frame subscribers. *)
Lemma animate_trace (w : World) (e : Effect) :
  In e (trace animate w) ->
  e = RequestFrame
  \/ exists event delta,
       e = Invoke Animate event (Some delta)
       /\ In event (animateEvents (this w)).
Proof.
  unfold trace.
  destruct ((0 <? targetFPS (this w))%float && negb (isPaused (this w))
            && (0 <? startTime (this w))) eqn:G.
  - rewrite (animate_active w G).
    destruct (ignoreTargetFPS (this w) || _); simpl.
    + intros [H|H]; [left; congruence|]. right.
      apply In_calls in H as [event [H1 H2]]. eauto.
    + intros [H|[]]. left. congruence.
  - rewrite (animate_idle w G). intros [].
Qed.

(** Whatever runs, a handler it calls on behalf of an array is, at that
    time, an entry of that array. *)
Lemma invoked_is_registered (o : Op) (w : World) (l : EventList)
  (event : Handler) (delta : option Z) :
  In (Invoke l event delta) (trace (run o) w) ->
  In event (events l (this w)).
Proof.
  assert (A : forall w0,
             (forall l0, events l0 (this w0) = events l0 (this w)) ->
             In (Invoke l event delta) (trace animate w0) ->
             In event (events l (this w))).
  { intros w0 E H. apply animate_trace in H as [H|(ev & d & H1 & H2)].
    - discriminate.
    - injection H1 as -> -> _. rewrite <- (E Animate). exact H2. }
  assert (Cl : forall l0 evs,
             In (Invoke l event delta) (calls l0 None evs) ->
             l = l0 /\ In event evs).
  { intros l0 evs H. apply In_calls in H as [ev [H1 H2]].
    injection H1 as -> -> _. now split. }
  destruct o; simpl run; unfold trace at 1.
  - destruct (Z.eq_dec (startTime (this w)) 0) as [E|E].
    + rewrite (start_stopped w E). cbv zeta. cbn [snd]. intro H.
      apply in_app_or in H as [H|H].
      * apply Cl in H as [-> H]. exact H.
      * revert H. apply A. intros []; reflexivity.
    + rewrite (start_not_stopped w E). intros [].
  - rewrite pause_run. destruct (_ && _); simpl; [|intros []].
    intro H. apply Cl in H as [-> H]. exact H.
  - destruct (negb (isPauseRequested (this w)) && isPaused (this w)) eqn:G.
    + apply andb_true_iff in G as [R P]. apply negb_true_iff in R.
      rewrite (resume_paused w R P). cbv zeta. cbn [snd]. intro H.
      apply in_app_or in H as [H|H].
      * apply Cl in H as [-> H]. exact H.
      * revert H. apply A. intros []; reflexivity.
    + rewrite (resume_idle w G). intros [].
  - rewrite stop_run. destruct (0 <? _); simpl; [|intros []].
    intro H. apply Cl in H as [-> H]. exact H.
  - intros [].
  - intros [].
  - intros [].
  - intros [].
  - rewrite subscribe_run. intros [].
  - rewrite removeEvent_run. destruct (_ =? _); intros [].
  - rewrite onHidden_run. destruct (pauseOnHidden (this w)); [|intros []].
    rewrite pause_run. destruct (_ && _); simpl; [|intros []].
    intro H. apply Cl in H as [-> H]. exact H.
  - rewrite onShow_run. destruct (resumeOnShown (this w)); [|intros []].
    set (w0 := with_this _ w).
    destruct (negb (isPauseRequested (this w0)) && isPaused (this w0)) eqn:G.
    + apply andb_true_iff in G as [R P]. apply negb_true_iff in R.
      rewrite (resume_paused w0 R P). cbv zeta. cbn [snd]. intro H.
      apply in_app_or in H as [H|H].
      * apply Cl in H as [-> H]. exact H.
      * revert H. apply A. intros []; reflexivity.
    + rewrite (resume_idle w0 G). intros [].
  - apply A. reflexivity.
Qed.

(** C9, as amended. For a handler that is not already an entry of the
    array: subscribing it and calling the returned closure at once leaves
    the animator exactly as it was, so no operation run afterwards calls
    the handler on behalf of that array; and removing a handler that is
    not registered changes nothing and calls nothing. *)
Theorem subscribe_then_unsubscribe (l : EventList) (event : Handler)
  (w : World) :
  ~ In event (events l (this w)) ->
  let unsubscribe := eval (subscribe l event) w in
  let w' := exec unsubscribe (exec (subscribe l event) w) in
  w' = w
  /\ (forall o delta, ~ In (Invoke l event delta) (trace (run o) w'))
  /\ exec (removeEvent event l) w = w
  /\ trace (removeEvent event l) w = [].
Proof.
  intros H unsubscribe w'.
  assert (E : w' = w).
  { unfold w', unsubscribe, eval, exec. rewrite subscribe_run, addEvent_run.
    cbn [fst snd]. rewrite removeEvent_run. simpl this.
    rewrite events_set_events, (indexOf_pushed _ _ H).
    destruct (Z.eqb_spec (Z.of_nat (length (events l (this w)))) (-1)); [lia|].
    cbn [fst snd]. rewrite Nat2Z.id, splice1_pushed.
    unfold with_this. simpl. rewrite set_events_twice, set_events_same.
    destruct w; reflexivity. }
  split; [exact E|]. split.
  - intros o delta I. rewrite E in I.
    apply invoked_is_registered in I. contradiction.
  - unfold exec, trace. rewrite (removeEvent_absent _ _ _ H). now split.
Qed.

Lemma subscribe_then_unsubscribe_witness :
  let unsubscribe := eval (subscribe Pause 8%nat) pause_watched in
  let w' := exec unsubscribe (exec (subscribe Pause 8%nat) pause_watched) in
  w' = pause_watched
  /\ ~ In (Invoke Pause 8%nat None) (trace pause w').
Proof.
  assert (H : ~ In 8%nat (events Pause (this pause_watched))).
  { simpl. intros [H|[]]. discriminate. }
  destruct (subscribe_then_unsubscribe Pause 8%nat pause_watched H)
    as [E [F _]].
  split; [exact E|]. exact (F OpPause None).
Defined.

Lemma indexOf_upper (event : Handler) (evs : list Handler) :
  In event evs -> 0 <= indexOf event evs < Z.of_nat (length evs).
Proof.
  induction evs as [|e evs IH]; simpl length; simpl indexOf; intro H;
    [contradiction|].
  destruct (Nat.eqb_spec e event) as [E|E]; [lia|].
  destruct H as [H|H]; [contradiction|]. specialize (IH H).
  destruct (Z.eqb_spec (indexOf event evs) (-1)); lia.
Qed.

Lemma indexOf_app_present (event : Handler) (evs rest : list Handler) :
  In event evs -> indexOf event (evs ++ rest) = indexOf event evs.
Proof.
  induction evs as [|e evs IH]; simpl; intro H; [contradiction|].
  destruct (Nat.eqb_spec e event) as [E|E]; [reflexivity|].
  destruct H as [H|H]; [contradiction|]. now rewrite IH.
Qed.

Lemma splice1_app (i : nat) (evs rest : list Handler) :
  (i < length evs)%nat -> splice1 i (evs ++ rest) = splice1 i evs ++ rest.
Proof.
  revert i. induction evs as [|e evs IH]; simpl; intros i H; [lia|].
  destruct i as [|i]; [reflexivity|]. simpl. rewrite IH by lia. reflexivity.
Qed.

(** Subscribing a handler that is already an entry, then calling the
    closure: the first of its entries goes and the new one stays at the
    end, so the handler is still registered. *)
Lemma resubscribe_moves_entry (l : EventList) (event : Handler) (w : World) :
  In event (events l (this w)) ->
  let unsubscribe := eval (subscribe l event) w in
  let w' := exec unsubscribe (exec (subscribe l event) w) in
  events l (this w')
  = splice1 (Z.to_nat (indexOf event (events l (this w))))
      (events l (this w)) ++ [event]
  /\ In event (events l (this w')).
Proof.
  intros H unsubscribe w'.
  assert (E : events l (this w')
              = splice1 (Z.to_nat (indexOf event (events l (this w))))
                  (events l (this w)) ++ [event]).
  { unfold w', unsubscribe, eval, exec. rewrite subscribe_run, addEvent_run.
    cbn [fst snd]. rewrite removeEvent_run. simpl this.
    rewrite events_set_events, (indexOf_app_present _ _ _ H).
    pose proof (indexOf_upper _ _ H) as B.
    destruct (Z.eqb_spec (indexOf event (events l (this w))) (-1)); [lia|].
    cbn [fst snd]. simpl this. rewrite events_set_events.
    apply splice1_app. lia. }
  split; [exact E|]. rewrite E. apply in_or_app. right. left. reflexivity.
Qed.

(** C9, as stated, fails for a handler that is already registered: the
    closure removes the first matching entry, so after subscribing handler
    7 to the pause event a second time and unsubscribing at once, [pause()]
    still calls it. *)
Lemma resubscribed_handler_still_called :
  let unsubscribe := eval (subscribe Pause 7%nat) pause_watched in
  let w' := exec unsubscribe (exec (subscribe Pause 7%nat) pause_watched) in
  trace pause w' = [Invoke Pause 7%nat None]
  /\ In (Invoke Pause 7%nat None) (trace (run OpPause) w').
Proof.
  split; [reflexivity|]. left. reflexivity.
Qed.

(** * Calling an operation twice *)

Lemma set_isPauseRequested_same (a : Animator) :
  set_isPauseRequested (isPauseRequested a) a = a.
Proof. destruct a; reflexivity. Qed.

(** [resume()] right after a [resume()] that went through does nothing. *)
Lemma resume_after_resume (w1 : World) :
  isPaused (this w1) = false ->
  resume (exec animate w1) = (tt, exec animate w1, []).
Proof.
  intro P. apply resume_idle.
  destruct (animate_frame w1) as (_ & H & _). rewrite H, P.
  apply andb_false_r.
Qed.

(** C8, as amended. For [start], [pause], [resume], [stop], the three
    setters and the getter (and for the two window broadcasts), a second
    call right after the first changes nothing and calls no subscriber;
    the clock is taken to read after the epoch.  Subscribing is left out:
    each call adds an entry. *)
Theorem second_call_does_nothing (o : Op) (w : World) :
  repeatable o = true ->
  0 < now w ->
  let w1 := exec (run o) w in
  exec (run o) w1 = w1 /\ trace (run o) w1 = [].
Proof.
  intros Rp Hn w1. unfold w1.
  assert (K : forall w0 : World, run o w0 = (tt, w0, []) ->
              exec (run o) w0 = w0 /\ trace (run o) w0 = []).
  { intros w0 E. unfold exec, trace. rewrite E. now split. }
  apply K. clear K.
  destruct o; try discriminate Rp; simpl run; clear Rp.
  - (* start *)
    destruct (Z.eq_dec (startTime (this w)) 0) as [E|E].
    + unfold exec at 1 2. rewrite (start_stopped w E). cbv zeta. cbn [fst snd].
      apply start_not_stopped.
      destruct (animate_frame
                  (with_this
                     (set_previousAnimateTime (now w)
                        (set_startTime (now w) (this w))) (after_read w)))
        as (H & _).
      rewrite H. simpl. lia.
    + unfold exec. rewrite (start_not_stopped w E). cbn [fst snd].
      now apply start_not_stopped.
  - (* pause *)
    unfold exec. rewrite (pause_run w).
    destruct ((0 <? startTime (this w)) && negb (isPaused (this w))) eqn:G;
      cbn [fst snd]; rewrite pause_run.
    + simpl. now rewrite andb_false_r.
    + now rewrite G.
  - (* resume *)
    destruct (negb (isPauseRequested (this w)) && isPaused (this w)) eqn:G.
    + apply andb_true_iff in G as [R P]. apply negb_true_iff in R.
      unfold exec at 1 2. rewrite (resume_paused w R P). cbv zeta.
      cbn [fst snd]. now apply resume_after_resume.
    + unfold exec. rewrite (resume_idle w G). cbn [fst snd].
      now apply resume_idle.
  - (* stop *)
    unfold exec. rewrite (stop_run w).
    destruct (0 <? startTime (this w)) eqn:G; cbn [fst snd]; rewrite stop_run.
    + reflexivity.
    + now rewrite G.
  - (* setTargetFPS *)
    reflexivity.
  - reflexivity.
  - reflexivity.
  - reflexivity.
  - (* hidden *)
    unfold exec. rewrite (onHidden_run w).
    destruct (pauseOnHidden (this w)) eqn:F.
    + rewrite pause_run. cbn [with_this this].
      destruct ((0 <? startTime (set_isPauseRequested true (this w)))
                && negb (isPaused (set_isPauseRequested true (this w))))
        eqn:G; cbn [fst snd]; rewrite onHidden_run;
        cbn [this with_this pauseOnHidden set_isPaused set_isPauseRequested];
        rewrite F; rewrite pause_run.
      * simpl. now rewrite andb_false_r.
      * simpl in G |- *. now rewrite G.
    + cbn [fst snd]. rewrite onHidden_run. now rewrite F.
  - (* shown *)
    unfold exec at 1 2. rewrite (onShow_run w).
    destruct (resumeOnShown (this w)) eqn:F.
    + set (w0 := with_this (set_isPauseRequested false (this w)) w).
      destruct (isPaused (this w0)) eqn:P.
      * assert (R : isPauseRequested (this w0) = false) by reflexivity.
        rewrite (resume_paused w0 R P). cbv zeta. cbn [fst snd].
        set (w2 := with_this _ (after_read w0)).
        destruct (animate_frame w2) as (_ & _ & H3 & _ & H5 & _).
        rewrite onShow_run, H5. simpl resumeOnShown. rewrite F.
        replace (with_this (set_isPauseRequested false
                              (this (exec animate w2))) (exec animate w2))
          with (exec animate w2).
        -- now apply resume_after_resume.
        -- pose proof (set_isPauseRequested_same (this (exec animate w2)))
             as S.
           rewrite H3 in S. change (isPauseRequested (this w2)) with false in S.
           rewrite S. symmetry. apply with_this_same.
      * rewrite (resume_idle w0) by (rewrite P; apply andb_false_r).
        cbn [fst snd]. rewrite onShow_run. simpl resumeOnShown. rewrite F.
        replace (with_this (set_isPauseRequested false (this w0)) w0)
          with w0 by reflexivity.
        apply resume_idle. rewrite P. apply andb_false_r.
    + cbn [fst snd]. rewrite onShow_run. now rewrite F.
Qed.

Lemma second_call_does_nothing_witness :
  let w1 := exec start fresh in
  trace start fresh = [RequestFrame]
  /\ exec start w1 = w1
  /\ trace start w1 = [].
Proof.
  assert (Hn : 0 < now fresh) by reflexivity.
  split; [reflexivity|].
  exact (second_call_does_nothing OpStart fresh eq_refl Hn).
Defined.

(** C8, as stated, fails for the subscriptions, which are public
    operations too: [add(7)] called twice in a row registers the handler
    twice, and the tick that [start()] then runs calls it twice, where
    after a single [add(7)] it calls it once. *)
Lemma subscribe_twice_fires_twice :
  let once := exec (run (OpSubscribe Animate 7%nat)) fresh in
  let twice := exec (run (OpSubscribe Animate 7%nat)) once in
  is_public (OpSubscribe Animate 7%nat) = true
  /\ animateEvents (this once) = [7%nat]
  /\ animateEvents (this twice) = [7%nat; 7%nat]
  /\ invocations 7%nat (trace start once) = 1%nat
  /\ invocations 7%nat (trace start twice) = 2%nat.
Proof. repeat split. Qed.

(** * [resume()] and the window *)

(** Only the "shown" broadcast clears [isPauseRequested]. *)
Lemma run_keeps_pause_request (o : Op) (w : World) :
  o <> OpShown ->
  isPauseRequested (this w) = true ->
  isPauseRequested (this (exec (run o) w)) = true.
Proof.
  intros N R. destruct o; try contradiction; simpl run.
  - destruct (Z.eq_dec (startTime (this w)) 0) as [E|E]; unfold exec at 1.
    + rewrite (start_stopped w E). cbv zeta. cbn [fst snd].
      destruct (animate_frame
                  (with_this
                     (set_previousAnimateTime (now w)
                        (set_startTime (now w) (this w))) (after_read w)))
        as (_ & _ & H & _).
      rewrite H. exact R.
    + rewrite (start_not_stopped w E). exact R.
  - unfold exec. rewrite pause_run. now destruct (_ && _).
  - unfold exec. rewrite resume_idle; [exact R|]. now rewrite R.
  - unfold exec. rewrite stop_run. now destruct (0 <? _).
  - exact R.
  - exact R.
  - exact R.
  - exact R.
  - rewrite subscribe_run. destruct l; exact R.
  - unfold exec. rewrite removeEvent_run.
    destruct (_ =? _); [exact R|]. destruct l; exact R.
  - unfold exec. rewrite onHidden_run.
    destruct (pauseOnHidden (this w)); [|exact R].
    rewrite pause_run. now destruct (_ && _).
  - destruct (animate_frame w) as (_ & _ & H & _). rewrite H. exact R.
Qed.

(** A tick leaves [previousAnimateTime] alone or sets it to its reading. *)
Lemma animate_previousAnimateTime (w : World) :
  previousAnimateTime (this (exec animate w)) = previousAnimateTime (this w)
  \/ previousAnimateTime (this (exec animate w)) = now w.
Proof.
  unfold exec.
  destruct ((0 <? targetFPS (this w))%float && negb (isPaused (this w))
            && (0 <? startTime (this w))) eqn:G.
  - rewrite (animate_active w G). cbv zeta.
    destruct (ignoreTargetFPS (this w) || _); [right|left]; reflexivity.
  - rewrite (animate_idle w G). left. reflexivity.
Qed.

(** The frame requests of an output are those of its ticks. *)
Lemma RequestFrame_not_called (l : EventList) (delta : option Z)
  (evs : list Handler) :
  ~ In RequestFrame (calls l delta evs).
Proof.
  intro H. apply In_calls in H. destruct H as [event [H _]]. discriminate.
Qed.

Lemma animate_requests_iff_Running (w : World) :
  In RequestFrame (trace animate w) <-> Running (this w).
Proof.
  rewrite Running_guard. unfold trace.
  destruct ((0 <? targetFPS (this w))%float && negb (isPaused (this w))
            && (0 <? startTime (this w))) eqn:G.
  - rewrite (animate_active w G). cbv zeta.
    destruct (_ || _); split; intro; try reflexivity; left; reflexivity.
  - rewrite (animate_idle w G). split; [intros []|discriminate].
Qed.

(** C5, as amended. [resume()] changes nothing and calls nothing unless
    [isPaused] is set, and also while [isPauseRequested] is set.  When it
    goes through it clears [isPaused], calls the resume subscribers, sets
    [previousAnimateTime] to the current time and runs a tick on the
    animator it has made: [isPaused] is clear afterwards, and
    [previousAnimateTime] is the reading the tick took when that tick fires
    (positive rate, started, and due after the time between the two
    readings), the reading [resume()] took otherwise.  The call requests a
    frame, so that ticking resumes, exactly when the target rate is
    positive and the animator started; otherwise the animator it has made
    is the result and the resume subscribers are all that is called.  No
    operation other than the "shown" broadcast clears [isPauseRequested];
    that broadcast clears it (when [resumeOnShown] holds), and after a
    "hidden" broadcast that [pauseOnHidden] lets through, [resume()] does
    nothing. *)
Theorem resume_gate (w : World) :
  let a := this w in
  (isPaused a = false \/ isPauseRequested a = true ->
   exec resume w = w /\ trace resume w = [])
  /\ (isPaused a = true -> isPauseRequested a = false ->
      let w1 := with_this
                  (set_previousAnimateTime (now w) (set_isPaused false a))
                  (after_read w) in
      let a' := this (exec resume w) in
      isPaused (this w1) = false
      /\ previousAnimateTime (this w1) = now w
      /\ exec resume w = exec animate w1
      /\ trace resume w
         = calls Resume None (resumeEvents a) ++ trace animate w1
      /\ isPaused a' = false
      /\ (previousAnimateTime a' = now w
          \/ previousAnimateTime a' = now (after_read w))
      /\ ((0 <? targetFPS a)%float = true /\ started a
          /\ due a (now (after_read w) - now w) ->
          previousAnimateTime a' = now (after_read w))
      /\ (~ ((0 <? targetFPS a)%float = true /\ started a
             /\ due a (now (after_read w) - now w)) ->
          previousAnimateTime a' = now w)
      /\ (In RequestFrame (trace resume w)
          <-> (0 <? targetFPS a)%float = true /\ started a)
      /\ (~ ((0 <? targetFPS a)%float = true /\ started a) ->
          exec resume w = w1
          /\ trace resume w = calls Resume None (resumeEvents a)))
  /\ (forall o, o <> OpShown -> isPauseRequested a = true ->
      isPauseRequested (this (exec (run o) w)) = true)
  /\ (resumeOnShown a = true ->
      isPauseRequested (this (exec onShow w)) = false)
  /\ (pauseOnHidden a = true ->
      let w' := exec onHidden w in
      isPauseRequested (this w') = true
      /\ exec resume w' = w' /\ trace resume w' = []).
Proof.
  intro a. split; [|split; [|split; [|split]]].
  - intro H. unfold exec, trace. rewrite resume_idle; [now split|].
    fold a. destruct H as [H|H]; rewrite H; [apply andb_false_r|reflexivity].
  - intros P R w1 a'.
    assert (E : resume w
                = (tt, exec animate w1,
                   calls Resume None (resumeEvents a) ++ trace animate w1))
      by exact (resume_paused w R P).
    assert (Ru : Running (this w1)
                 <-> (0 <? targetFPS a)%float = true /\ started a).
    { unfold Running, started. simpl. tauto. }
    assert (Ex : exec resume w = exec animate w1)
      by (unfold exec at 1; rewrite E; reflexivity).
    assert (Tr : trace resume w
                 = calls Resume None (resumeEvents a) ++ trace animate w1)
      by (unfold trace at 1; rewrite E; reflexivity).
    unfold a'. rewrite Ex, Tr.
    split; [reflexivity|]. split; [reflexivity|]. split; [reflexivity|].
    split; [reflexivity|]. split; [|split; [|split; [|split; [|split]]]].
    + destruct (animate_frame w1) as (_ & H & _). rewrite H. reflexivity.
    + destruct (animate_previousAnimateTime w1) as [H|H]; rewrite H;
        [left|right]; reflexivity.
    + intros (HF & HS & D).
      assert (G : Running (this w1)) by (apply Ru; split; assumption).
      apply Running_guard in G. apply due_guard in D.
      unfold exec. rewrite (animate_active w1 G). cbv zeta.
      match goal with
      | |- context [if ?b then _ else _] =>
          replace b with true by (symmetry; exact D)
      end.
      reflexivity.
    + intro N. unfold exec.
      destruct ((0 <? targetFPS (this w1))%float && negb (isPaused (this w1))
                && (0 <? startTime (this w1))) eqn:G.
      * rewrite (animate_active w1 G). cbv zeta.
        destruct (ignoreTargetFPS (this w1) || _) eqn:B; [|reflexivity].
        exfalso. apply N. apply Running_guard, Ru in G.
        split; [apply G|]. split; [apply G|]. apply due_guard. exact B.
      * rewrite (animate_idle w1 G). reflexivity.
    + rewrite <- Ru, <- animate_requests_iff_Running. split; intro H.
      * apply in_app_or in H. destruct H as [H|H]; [|exact H].
        destruct (RequestFrame_not_called _ _ _ H).
      * apply in_or_app. right. exact H.
    + intro H. rewrite <- Ru, Running_guard in H.
      apply not_true_is_false in H. unfold exec, trace.
      rewrite (animate_idle w1 H). split; [reflexivity|apply app_nil_r].
  - intros o. apply run_keeps_pause_request.
  - intro F. unfold exec. rewrite onShow_run. fold a. rewrite F.
    set (w0 := with_this (set_isPauseRequested false a) w).
    destruct (isPaused (this w0)) eqn:P.
    + assert (R : isPauseRequested (this w0) = false) by reflexivity.
      rewrite (resume_paused w0 R P). cbv zeta. cbn [fst snd].
      match goal with
      | |- context [exec animate ?x] =>
          destruct (animate_frame x) as (_ & _ & H & _)
      end.
      rewrite H. reflexivity.
    + rewrite (resume_idle w0) by (rewrite P; apply andb_false_r).
      reflexivity.
  - intros F w'.
    assert (R : isPauseRequested (this w') = true).
    { unfold w', exec. rewrite onHidden_run. fold a. rewrite F.
      rewrite pause_run. now destruct (_ && _). }
    split; [exact R|]. unfold exec, trace.
    rewrite (resume_idle w') by (now rewrite R). now split.
Qed.

Lemma resume_gate_witness :
  (isPauseRequested (this paused_by_window) = true
   /\ exec resume paused_by_window = paused_by_window
   /\ trace resume paused_by_window = [])
  /\ (isPaused (this paused_by_caller) = true
      /\ isPauseRequested (this paused_by_caller) = false
      /\ trace resume paused_by_caller
         = [Invoke Resume 7%nat None; RequestFrame]
      /\ previousAnimateTime (this (exec resume paused_by_caller)) = 1000
      /\ In RequestFrame (trace resume paused_by_caller)).
Proof.
  split.
  - destruct (resume_gate paused_by_window) as [F _].
    split; [reflexivity|]. apply F. right. reflexivity.
  - destruct (resume_gate paused_by_caller) as [_ [F _]].
    destruct (F eq_refl eq_refl) as (_ & _ & _ & T & _ & _ & _ & _ & I & _).
    split; [reflexivity|]. split; [reflexivity|]. split; [exact T|].
    split; [reflexivity|]. apply I. split; reflexivity.
Defined.

(** C5, as stated, fails: an animator that is paused (by [pause()], not by
    the window) after [setTargetFPS(0)] does make the transition on
    [resume()], which clears [isPaused], calls the resume subscriber and
    sets [previousAnimateTime], but requests no frame; the frame that was
    outstanding has run while paused, so no tick follows and ticking does
    not resume. *)
Lemma resume_at_zero_rate_requests_nothing :
  let w := paused_at_zero_rate in
  (isPaused (this w) = true
   /\ isPauseRequested (this w) = false
   /\ started (this w))
  /\ isPaused (this (exec resume w)) = false
  /\ previousAnimateTime (this (exec resume w)) = now w
  /\ trace resume w = [Invoke Resume 7%nat None]
  /\ ~ In RequestFrame (trace resume w)
  /\ trace animate (exec resume w) = [].
Proof.
  repeat split. vm_compute. intros [H|[]]. discriminate.
Qed.

(** * More on the event lists *)

Lemma first_entry (event : Handler) (evs : list Handler) :
  In event evs ->
  exists before after,
    evs = before ++ event :: after
    /\ ~ In event before
    /\ indexOf event evs = Z.of_nat (length before)
    /\ splice1 (length before) evs = before ++ after.
Proof.
  induction evs as [|e evs IH]; simpl; intro H; [contradiction|].
  destruct (Nat.eqb_spec e event) as [E|E].
  - subst e. exists [], evs. repeat split. intros [].
  - destruct H as [H|H]; [contradiction|].
    destruct (IH H) as (before & after & E1 & E2 & E3 & E4).
    exists (e :: before), after. simpl. rewrite E3, E4, <- E1.
    destruct (Z.eqb_spec (Z.of_nat (length before)) (-1)); [lia|].
    repeat split.
    + intros [F|F]; [contradiction|tauto].
    + lia.
Qed.

Lemma events_set_events_other (l l' : EventList) (v : list Handler)
  (a : Animator) :
  l' <> l -> events l' (set_events l v a) = events l' a.
Proof. destruct l, l'; intro H; try reflexivity; contradiction. Qed.

(** X1. When the handler is an entry of the array, [removeEvent] takes out
    its first entry and only that one: the entries before it and after it
    stay, in their order, and the other four arrays are untouched. *)
Theorem removeEvent_takes_first_entry (event : Handler) (l : EventList)
  (w : World) :
  In event (events l (this w)) ->
  let a' := this (exec (removeEvent event l) w) in
  exists before after,
    events l (this w) = before ++ event :: after
    /\ ~ In event before
    /\ events l a' = before ++ after
    /\ (forall l', l' <> l -> events l' a' = events l' (this w)).
Proof.
  intros H a'.
  destruct (first_entry _ _ H) as (before & after & E1 & E2 & E3 & E4).
  exists before, after. split; [exact E1|]. split; [exact E2|].
  unfold a', exec. rewrite removeEvent_run, E3.
  destruct (Z.eqb_spec (Z.of_nat (length before)) (-1)); [lia|].
  cbn [fst snd]. simpl this. rewrite Nat2Z.id, E4. split.
  - apply events_set_events.
  - intros l' N. now apply events_set_events_other.
Qed.

Lemma removeEvent_takes_first_entry_witness :
  let w := exec (runAll [OpSubscribe Animate 5%nat; OpSubscribe Animate 7%nat;
                         OpSubscribe Animate 6%nat; OpSubscribe Animate 7%nat])
             fresh in
  exists before after,
    events Animate (this w) = before ++ 7%nat :: after
    /\ ~ In 7%nat before
    /\ events Animate (this (exec (removeEvent 7%nat Animate) w))
       = before ++ after
    /\ (forall l', l' <> Animate ->
        events l' (this (exec (removeEvent 7%nat Animate) w))
        = events l' (this w)).
Proof.
  apply (removeEvent_takes_first_entry 7%nat Animate). simpl. tauto.
Defined.

Lemma indexOf_first (event : Handler) (evs rest : list Handler) :
  ~ In event evs ->
  indexOf event (evs ++ event :: rest) = Z.of_nat (length evs).
Proof.
  induction evs as [|e evs IH]; simpl; intro H.
  - now rewrite Nat.eqb_refl.
  - destruct (Nat.eqb_spec e event) as [E|E]; [tauto|].
    rewrite IH by tauto.
    destruct (Z.eqb_spec (Z.of_nat (length evs)) (-1)); lia.
Qed.

Lemma splice1_middle (event : Handler) (evs rest : list Handler) :
  splice1 (length evs) (evs ++ event :: rest) = evs ++ rest.
Proof.
  induction evs as [|e evs IH]; simpl; [reflexivity|]. now rewrite IH.
Qed.

Lemma subscribe_times (l : EventList) (event : Handler) (n : nat) (w : World) :
  exec (times n (subscribe l event ;; ret tt)) w
  = with_this
      (set_events l (events l (this w) ++ repeat event n) (this w)) w.
Proof.
  revert w. induction n as [|n IH]; intro w.
  - simpl. rewrite app_nil_r, set_events_same, with_this_same. reflexivity.
  - simpl times. rewrite exec_bind, IH.
    unfold exec at 1 2 3. unfold bind at 1 2 3. rewrite subscribe_run, addEvent_run.
    cbn [fst snd ret]. simpl this.
    rewrite events_set_events, set_events_twice, <- app_assoc. reflexivity.
Qed.

Lemma removeEvent_times (l : EventList) (event : Handler) (n : nat)
  (evs : list Handler) (w : World) :
  ~ In event evs ->
  exec (times n (removeEvent event l))
    (with_this (set_events l (evs ++ repeat event n) (this w)) w)
  = with_this (set_events l evs (this w)) w.
Proof.
  intro H. induction n as [|n IH].
  - simpl. now rewrite app_nil_r.
  - simpl times. rewrite exec_bind. unfold exec at 2.
    rewrite removeEvent_run. simpl this.
    rewrite events_set_events. simpl repeat.
    rewrite (indexOf_first _ _ _ H).
    destruct (Z.eqb_spec (Z.of_nat (length evs)) (-1)); [lia|].
    cbn [fst snd]. rewrite Nat2Z.id, splice1_middle.
    unfold with_this at 2. simpl. rewrite set_events_twice. exact IH.
Qed.

(** X2. Subscribing a handler [n] times to an array where it was not
    registered appends [n] entries of it after the entries that were
    there, and [n] calls of the closure that a subscription returns take
    them all out again, leaving the animator exactly as it was before the
    first subscription. *)
Theorem subscriptions_balance (l : EventList) (event : Handler) (n : nat)
  (w : World) :
  ~ In event (events l (this w)) ->
  let unsubscribe := eval (subscribe l event) w in
  let w' := exec (times n (subscribe l event ;; ret tt)) w in
  events l (this w') = events l (this w) ++ repeat event n
  /\ exec (times n unsubscribe) w' = w.
Proof.
  intros H unsubscribe w'. unfold w'. rewrite subscribe_times. split.
  - apply events_set_events.
  - unfold unsubscribe, eval. rewrite subscribe_run, addEvent_run.
    cbn [fst snd]. rewrite (removeEvent_times _ _ _ _ _ H).
    now rewrite set_events_same, with_this_same.
Qed.

Lemma subscriptions_balance_witness :
  let unsubscribe := eval (subscribe Pause 8%nat) pause_watched in
  let w' := exec (times 3 (subscribe Pause 8%nat ;; ret tt)) pause_watched in
  events Pause (this w')
  = events Pause (this pause_watched) ++ repeat 8%nat 3
  /\ exec (times 3 unsubscribe) w' = pause_watched.
Proof.
  apply (subscriptions_balance Pause 8%nat 3 pause_watched).
  simpl. intros [H|[]]. discriminate.
Defined.

(** * More on the throttle *)

(** The frame handlers a tick calls, and with what. *)
Lemma animate_calls (w : World) (event : Handler) (d : Z) :
  In (Invoke Animate event (Some d)) (trace animate w) ->
  Running (this w)
  /\ d = now w - previousAnimateTime (this w)
  /\ due (this w) d
  /\ In event (animateEvents (this w)).
Proof.
  unfold trace.
  destruct ((0 <? targetFPS (this w))%float && negb (isPaused (this w))
            && (0 <? startTime (this w))) eqn:G.
  - rewrite (animate_active w G). cbv zeta.
    assert (R : Running (this w)) by now apply Running_guard.
    destruct (ignoreTargetFPS (this w) || _) eqn:B; simpl.
    + intros [H|H]; [discriminate|].
      apply In_calls in H as [ev [H1 H2]]. injection H1 as -> ->.
      repeat split; try apply R; try assumption.
      apply due_guard. exact B.
    + intros [H|[]]. discriminate.
  - rewrite (animate_idle w G). intros [].
Qed.

(** The operations that run [animate] run it on an animator with the rate,
    the flag and the frame handlers of the animator they were called on. *)
Lemma frame_call_origin (o : Op) (w : World) (event : Handler) (d : Z) :
  In (Invoke Animate event (Some d)) (trace (run o) w) ->
  exists w1,
    In (Invoke Animate event (Some d)) (trace animate w1)
    /\ targetFPS (this w1) = targetFPS (this w)
    /\ ignoreTargetFPS (this w1) = ignoreTargetFPS (this w)
    /\ animateEvents (this w1) = animateEvents (this w).
Proof.
  assert (Cl : forall l0 evs, l0 <> Animate ->
             ~ In (Invoke Animate event (Some d)) (calls l0 None evs)).
  { intros l0 evs N H. apply In_calls in H as [ev [H1 _]]. discriminate. }
  destruct o; simpl run; unfold trace at 1.
  - destruct (Z.eq_dec (startTime (this w)) 0) as [E|E].
    + rewrite (start_stopped w E). cbv zeta. cbn [snd]. intro H.
      apply in_app_or in H as [H|H]; [now apply Cl in H|].
      eexists. split; [exact H|]. repeat split.
    + rewrite (start_not_stopped w E). intros [].
  - rewrite pause_run. destruct (_ && _); simpl; [|intros []].
    intro H. now apply Cl in H.
  - destruct (negb (isPauseRequested (this w)) && isPaused (this w)) eqn:G.
    + apply andb_true_iff in G as [R P]. apply negb_true_iff in R.
      rewrite (resume_paused w R P). cbv zeta. cbn [snd]. intro H.
      apply in_app_or in H as [H|H]; [now apply Cl in H|].
      eexists. split; [exact H|]. repeat split.
    + rewrite (resume_idle w G). intros [].
  - rewrite stop_run. destruct (0 <? _); simpl; [|intros []].
    intro H. now apply Cl in H.
  - intros [].
  - intros [].
  - intros [].
  - intros [].
  - rewrite subscribe_run. intros [].
  - rewrite removeEvent_run. destruct (_ =? _); intros [].
  - rewrite onHidden_run. destruct (pauseOnHidden (this w)); [|intros []].
    rewrite pause_run. destruct (_ && _); simpl; [|intros []].
    intro H. now apply Cl in H.
  - rewrite onShow_run. destruct (resumeOnShown (this w)); [|intros []].
    set (w0 := with_this _ w).
    destruct (negb (isPauseRequested (this w0)) && isPaused (this w0)) eqn:G.
    + apply andb_true_iff in G as [R P]. apply negb_true_iff in R.
      rewrite (resume_paused w0 R P). cbv zeta. cbn [snd]. intro H.
      apply in_app_or in H as [H|H]; [now apply Cl in H|].
      eexists. split; [exact H|]. repeat split.
    + rewrite (resume_idle w0 G). intros [].
  - intro H. exists w. repeat split. exact H.
Qed.

(** X3. An animator whose [ignoreTargetFPS] is not set never hands a frame
    subscriber a delta below its period: whatever operation makes the
    call ([start], [resume], a "shown" broadcast or a frame), the target
    rate is positive, the delta is at least the double [1000 / targetFPS]
    that the tick computes, and the handler is a registered frame
    subscriber. *)
Theorem throttled_delta_reaches_period (o : Op) (w : World)
  (event : Handler) (d : Z) :
  ignoreTargetFPS (this w) = false ->
  In (Invoke Animate event (Some d)) (trace (run o) w) ->
  (0 <? targetFPS (this w))%float = true
  /\ number_ge d (1000 / targetFPS (this w))%float = true
  /\ In event (animateEvents (this w)).
Proof.
  intros I H.
  destruct (frame_call_origin o w event d H) as (w1 & H1 & E1 & E2 & E3).
  destruct (animate_calls w1 event d H1) as (R & _ & D & Hin).
  rewrite <- E1, <- E3. split; [apply R|]. split; [|exact Hin].
  destruct D as [D|D]; [congruence|exact D].
Qed.

Lemma throttled_delta_reaches_period_witness :
  (0 <? targetFPS (this started_at_period_17))%float = true
  /\ number_ge 17 (1000 / targetFPS (this started_at_period_17))%float
     = true
  /\ In 7%nat (animateEvents (this started_at_period_17)).
Proof.
  apply (throttled_delta_reaches_period OpFrame started_at_period_17 7%nat 17).
  - reflexivity.
  - right. left. reflexivity.
Defined.

Lemma trace_bind {A B : Type} (m : M A) (k : A -> M B) (w : World) :
  trace (bind m k) w = trace m w ++ trace (k (eval m w)) (exec m w).
Proof.
  unfold trace, exec, eval, bind. destruct (m w) as [[x w1] out1].
  simpl. destruct (k x w1) as [[y w2] out2]. reflexivity.
Qed.

(** A tick of a Running animator that is not due only reads the clock and
    requests the next frame. *)
Lemma animate_skip (w : World) :
  Running (this w) ->
  ~ due (this w) (now w - previousAnimateTime (this w)) ->
  animate w = (tt, after_read w, [RequestFrame]).
Proof.
  intros R N. assert (G := proj1 (Running_guard _) R).
  rewrite (animate_active w G). cbv zeta.
  destruct (ignoreTargetFPS (this w) || _) eqn:B; [|reflexivity].
  exfalso. apply N. apply due_guard. exact B.
Qed.

(** X4. Ticks that are skipped accumulate: when a Running animator takes
    [n] ticks in a row, none of them due, no subscriber is called, [n]
    frames are requested and no field changes, [previousAnimateTime]
    included, so the tick after them measures its delta from the last tick
    that fired. *)
Theorem skipped_ticks_accumulate (n : nat) (w : World) :
  Running (this w) ->
  (forall k, (k < n)%nat ->
     ~ due (this w)
         (clock (host w) (reads (host w) + k)
          - previousAnimateTime (this w))) ->
  exec (times n animate) w
  = mkWorld (this w) (mkHost (clock (host w)) (reads (host w) + n))
  /\ trace (times n animate) w = repeat RequestFrame n
  /\ now (exec (times n animate) w)
       - previousAnimateTime (this (exec (times n animate) w))
     = clock (host w) (reads (host w) + n) - previousAnimateTime (this w).
Proof.
  revert w. induction n as [|n IH]; intros w R N.
  - unfold exec, trace, now. simpl. rewrite ?Nat.add_0_r.
    destruct w as [a [c r]]. repeat split.
  - assert (S0 : animate w = (tt, after_read w, [RequestFrame])).
    { apply animate_skip; [exact R|].
      specialize (N 0%nat (Nat.lt_0_succ n)).
      rewrite Nat.add_0_r in N. exact N. }
    assert (E : exec animate w = after_read w) by (unfold exec; now rewrite S0).
    assert (T : trace animate w = [RequestFrame])
      by (unfold trace; now rewrite S0).
    destruct (IH (after_read w)) as (E1 & T1 & D1).
    + exact R.
    + intros k Hk. simpl. rewrite <- Nat.add_succ_r. apply N. lia.
    + simpl times. rewrite exec_bind, trace_bind, E, T, E1, T1.
      simpl. rewrite <- Nat.add_succ_r. repeat split.
Qed.

Lemma skipped_ticks_accumulate_witness :
  let w := snd (fst (startAnimation 7%nat (with_fps 30)
                       (page [1000; 1000; 1010; 1020; 1030] 1040))) in
  exec (times 3 animate) w
  = mkWorld (this w) (mkHost (clock (host w)) (reads (host w) + 3))
  /\ trace (times 3 animate) w = repeat RequestFrame 3
  /\ now (exec (times 3 animate) w)
       - previousAnimateTime (this (exec (times 3 animate) w))
     = clock (host w) (reads (host w) + 3) - previousAnimateTime (this w).
Proof.
  apply (skipped_ticks_accumulate 3).
  - repeat split.
  - intros k Hk [F|F]; [discriminate|].
    destruct k as [|[|[|k]]]; [| | |lia]; vm_compute in F; discriminate.
Defined.

(** X18. The throttle compares doubles.  On a tick of a Running animator
    whose delta is below 2^53 in magnitude, as any difference of two time
    values is, what decides the firing is [ignoreTargetFPS] or the kernel's
    comparison [delay <=? delta] between the double [1000 / targetFPS] and
    the double that holds the delta. *)
Theorem animate_compares_doubles (w : World) :
  Running (this w) ->
  - 2 ^ 53 < now w - previousAnimateTime (this w) < 2 ^ 53 ->
  let a := this w in
  let delta := now w - previousAnimateTime a in
  trace animate w
  = if ignoreTargetFPS a
       || (1000 / targetFPS a <=? number_of_Z delta)%float
    then RequestFrame :: calls Animate (Some delta) (animateEvents a)
    else [RequestFrame].
Proof.
  intros R B a delta. apply Running_guard in R.
  unfold trace. rewrite (animate_active w R). cbv zeta.
  fold a. fold delta. rewrite (number_ge_leb delta _ B).
  destruct (ignoreTargetFPS a || _); reflexivity.
Qed.

Lemma animate_compares_doubles_witness :
  let a := this started_at_period_17 in
  (1000 / targetFPS a <=? number_of_Z 17)%float = true
  /\ trace animate started_at_period_17
     = [RequestFrame; Invoke Animate 7%nat (Some 17)].
Proof.
  assert (R : Running (this started_at_period_17)).
  { unfold Running, started. repeat split. }
  assert (B : - 2 ^ 53
              < now started_at_period_17
                - previousAnimateTime (this started_at_period_17)
              < 2 ^ 53) by (split; reflexivity).
  split; [reflexivity|].
  exact (animate_compares_doubles started_at_period_17 R B).
Defined.

(** * Time stamps and the measured rate *)

(** X5. [start()] on a stopped animator and a [resume()] that goes through
    both leave [previousAnimateTime] at one of the (at most two) clock
    readings taken during the call, whatever it was before: the time
    before the start and the time spent paused are never part of the next
    delta.  [start()] also records the first reading as [startTime]. *)
Theorem restart_resets_previousAnimateTime (w : World) :
  (startTime (this w) = 0 ->
   startTime (this (exec start w)) = now w
   /\ (previousAnimateTime (this (exec start w)) = now w
       \/ previousAnimateTime (this (exec start w)) = now (after_read w)))
  /\ (isPaused (this w) = true -> isPauseRequested (this w) = false ->
      previousAnimateTime (this (exec resume w)) = now w
      \/ previousAnimateTime (this (exec resume w)) = now (after_read w)).
Proof.
  split.
  - intro E. unfold exec at 1 2 3. rewrite (start_stopped w E). cbv zeta.
    cbn [fst snd].
    set (w1 := with_this _ (after_read w)). split.
    + destruct (animate_frame w1) as (H & _). rewrite H. reflexivity.
    + destruct (animate_previousAnimateTime w1) as [H|H]; rewrite H;
        [left|right]; reflexivity.
  - intros P R. unfold exec at 1 2. rewrite (resume_paused w R P). cbv zeta.
    cbn [fst snd].
    set (w1 := with_this _ (after_read w)).
    destruct (animate_previousAnimateTime w1) as [H|H]; rewrite H;
      [left|right]; reflexivity.
Qed.

Lemma restart_resets_previousAnimateTime_witness :
  previousAnimateTime (this (exec resume paused_by_caller))
  = now paused_by_caller
  \/ previousAnimateTime (this (exec resume paused_by_caller))
     = now (after_read paused_by_caller).
Proof.
  destruct (restart_resets_previousAnimateTime paused_by_caller) as [_ F].
  apply F; reflexivity.
Defined.

(** What a tick does to [performingFPS]. *)
Lemma animate_performingFPS (w : World) :
  (trace animate w = [] \/ trace animate w = [RequestFrame])
  /\ performingFPS (this (exec animate w)) = performingFPS (this w)
  \/ trace animate w
     = RequestFrame
       :: calls Animate (Some (now w - previousAnimateTime (this w)))
            (animateEvents (this w))
     /\ performingFPS (this (exec animate w))
        = (1000 / number_of_Z (now w - previousAnimateTime (this w)))%float.
Proof.
  unfold exec, trace.
  destruct ((0 <? targetFPS (this w))%float && negb (isPaused (this w))
            && (0 <? startTime (this w))) eqn:G.
  - rewrite (animate_active w G). cbv zeta.
    destruct (ignoreTargetFPS (this w) || _); [right|left]; simpl; tauto.
  - rewrite (animate_idle w G). left. simpl. tauto.
Qed.

(** X6. [performingFPS] is only written by a tick that fires.  After any
    operation it is either what it was, or [1000 / d] for a [d] that the
    operation handed, in that call, to every frame subscriber; [stop()],
    [pause()] and the setters never reset it. *)
Theorem performingFPS_follows_fired_ticks (o : Op) (w : World) :
  performingFPS (this (exec (run o) w)) = performingFPS (this w)
  \/ exists d,
       performingFPS (this (exec (run o) w)) = (1000 / number_of_Z d)%float
       /\ In RequestFrame (trace (run o) w)
       /\ forall event, In event (animateEvents (this w)) ->
            In (Invoke Animate event (Some d)) (trace (run o) w).
Proof.
  assert (A : forall w1 pre,
             performingFPS (this w1) = performingFPS (this w) ->
             animateEvents (this w1) = animateEvents (this w) ->
             performingFPS (this (exec animate w1)) = performingFPS (this w)
             \/ exists d,
                  performingFPS (this (exec animate w1))
                  = (1000 / number_of_Z d)%float
                  /\ In RequestFrame (pre ++ trace animate w1)
                  /\ forall event, In event (animateEvents (this w)) ->
                       In (Invoke Animate event (Some d))
                         (pre ++ trace animate w1)).
  { intros w1 pre E1 E2.
    destruct (animate_performingFPS w1) as [[_ H]|[T H]].
    - left. congruence.
    - right. exists (now w1 - previousAnimateTime (this w1)).
      split; [exact H|]. rewrite T. split.
      + apply in_or_app. right. left. reflexivity.
      + intros event I. apply in_or_app. right. right.
        apply In_calls. exists event. split; [reflexivity|]. congruence. }
  destruct o; simpl run.
  - destruct (Z.eq_dec (startTime (this w)) 0) as [E|E]; unfold exec, trace.
    + rewrite (start_stopped w E). cbv zeta. cbn [fst snd].
      apply A; reflexivity.
    + rewrite (start_not_stopped w E). left. reflexivity.
  - left. unfold exec. rewrite pause_run. now destruct (_ && _).
  - destruct (negb (isPauseRequested (this w)) && isPaused (this w)) eqn:G;
      unfold exec, trace.
    + apply andb_true_iff in G as [R P]. apply negb_true_iff in R.
      rewrite (resume_paused w R P). cbv zeta. cbn [fst snd].
      apply A; reflexivity.
    + rewrite (resume_idle w G). left. reflexivity.
  - left. unfold exec. rewrite stop_run. now destruct (0 <? _).
  - left. reflexivity.
  - left. reflexivity.
  - left. reflexivity.
  - left. reflexivity.
  - left. rewrite subscribe_run. destruct l; reflexivity.
  - left. unfold exec. rewrite removeEvent_run.
    destruct (_ =? _); [reflexivity|]. destruct l; reflexivity.
  - left. unfold exec. rewrite onHidden_run.
    destruct (pauseOnHidden (this w)); [|reflexivity].
    rewrite pause_run. now destruct (_ && _).
  - unfold exec, trace. rewrite onShow_run.
    destruct (resumeOnShown (this w)); [|left; reflexivity].
    set (w0 := with_this _ w).
    destruct (negb (isPauseRequested (this w0)) && isPaused (this w0)) eqn:G.
    + apply andb_true_iff in G as [R P]. apply negb_true_iff in R.
      rewrite (resume_paused w0 R P). cbv zeta. cbn [fst snd].
      apply A; reflexivity.
    + rewrite (resume_idle w0 G). left. reflexivity.
  - apply (A w []); reflexivity.
Qed.

(** * More on [startAnimation] *)

(** The configured rate, when [params.fps] is truthy. *)
Lemma constructor_truthy (q : number) (hide shown : option bool) :
  truthy (Some q) = true ->
  targetFPS (constructor (Some (Params.mk (Some q) hide shown))) = q
  /\ ignoreTargetFPS (constructor (Some (Params.mk (Some q) hide shown)))
     = false.
Proof.
  intro N. unfold constructor. cbn [Params.fps]. rewrite N.
  split; reflexivity.
Qed.

(** X7. [startAnimation(h, { fps })] with a positive [fps] whose period,
    the double [1000 / fps], is above 0, at a time [T] that the clock still
    shows when [start()] runs its first tick: the call itself requests a
    frame and does not call [h]; the tick that runs [d] ms later calls [h]
    once, with delta [d], when [d >= 1000 / fps], and does not call it
    otherwise. *)
Theorem startAnimation_first_due_tick (h : Handler) (fps : number)
  (T d : Z) :
  0 < T ->
  (0 <? fps)%float = true ->
  number_ge 0 (1000 / fps)%float = false ->
  let r := startAnimation h (with_fps fps) (page [T; T] (T + d)) in
  snd r = [RequestFrame]
  /\ (number_ge d (1000 / fps)%float = true ->
      trace animate (snd (fst r))
      = [RequestFrame; Invoke Animate h (Some d)])
  /\ (number_ge d (1000 / fps)%float = false ->
      trace animate (snd (fst r)) = [RequestFrame]).
Proof.
  intros HT HF HP r. unfold r. rewrite startAnimation_run.
  destruct (constructor_truthy fps None None (positive_truthy fps HF))
    as [CF CI].
  fold (with_fps fps) in CF, CI.
  rewrite start_stopped by reflexivity. cbv zeta.
  match goal with |- context [exec animate ?w] => set (w1 := w) end.
  assert (F1 : targetFPS (this w1) = fps) by exact CF.
  assert (I1 : ignoreTargetFPS (this w1) = false) by exact CI.
  assert (R1 : Running (this w1)).
  { unfold Running, started. rewrite F1. repeat split; [exact HF|exact HT]. }
  assert (E1 : animate w1 = (tt, after_read w1, [RequestFrame])).
  { apply animate_skip; [exact R1|].
    replace (now w1 - previousAnimateTime (this w1)) with 0
      by (unfold w1, now; simpl; lia).
    intros [D|D]; [congruence|]. rewrite F1 in D. congruence. }
  unfold exec, trace. rewrite E1. cbn [fst snd].
  split; [reflexivity|].
  assert (G : (0 <? targetFPS (this (after_read w1)))%float
              && negb (isPaused (this (after_read w1)))
              && (0 <? startTime (this (after_read w1))) = true)
    by (apply Running_guard; exact R1).
  rewrite (animate_active (after_read w1) G). cbv zeta.
  replace (now (after_read w1) - previousAnimateTime (this (after_read w1)))
    with d by (unfold w1, now; simpl; lia).
  change (this (after_read w1)) with (this w1). rewrite I1, F1. simpl orb.
  split; intro D; rewrite D; reflexivity.
Qed.

Lemma startAnimation_first_due_tick_witness :
  let r := startAnimation 7%nat (with_fps (1000 / 17))
             (page [1000; 1000] 1017) in
  snd r = [RequestFrame]
  /\ trace animate (snd (fst r))
     = [RequestFrame; Invoke Animate 7%nat (Some 17)].
Proof.
  assert (HT : 0 < 1000) by lia.
  destruct (startAnimation_first_due_tick 7%nat (1000 / 17) 1000 17 HT
              eq_refl eq_refl)
    as [E [F _]].
  split; [exact E|]. apply F. reflexivity.
Defined.

(** With [fps] infinite the period [1000 / fps] is 0, and the tick that
    [start()] runs calls the handler at once. *)
Lemma startAnimation_infinite_fps_calls_at_once :
  let r := startAnimation 7%nat (with_fps infinity) (page [] 1000) in
  (0 <? infinity)%float = true
  /\ number_ge 0 (1000 / infinity)%float = true
  /\ snd r = [RequestFrame; Invoke Animate 7%nat (Some 0)].
Proof. repeat split. Qed.

(** X8. [startAnimation(h, params)] without a truthy [fps] calls [h]
    before it returns: [start()] runs a first tick, which fires whatever
    the elapsed time, with the difference of two consecutive clock
    readings as delta.  When the two readings are equal the delta is 0 and
    [performingFPS] becomes [Infinity]. *)
Theorem startAnimation_uncapped_calls_at_once (h : Handler)
  (params : option Params.t) (env : Host) :
  truthy (match params with Some p => Params.fps p | None => None end)
  = false ->
  0 < clock env (reads env) ->
  let t0 := clock env (reads env) in
  let t1 := clock env (S (reads env)) in
  let r := startAnimation h params env in
  snd r = [RequestFrame; Invoke Animate h (Some (t1 - t0))]
  /\ performingFPS (this (snd (fst r)))
     = (1000 / number_of_Z (t1 - t0))%float
  /\ (t1 = t0 -> performingFPS (this (snd (fst r))) = infinity).
Proof.
  intros F HT t0 t1 r.
  assert (C : targetFPS (constructor params) = MAX_FPS
              /\ ignoreTargetFPS (constructor params) = true).
  { unfold constructor. destruct params as [[f hd sh]|]; simpl in F |- *;
      rewrite ?F; split; reflexivity. }
  destruct C as [CF CI].
  assert (E : snd r = [RequestFrame; Invoke Animate h (Some (t1 - t0))]
              /\ performingFPS (this (snd (fst r)))
                 = (1000 / number_of_Z (t1 - t0))%float).
  { unfold r. rewrite startAnimation_run.
    rewrite start_stopped by (destruct params as [[f hd sh]|]; reflexivity).
    cbv zeta.
    match goal with |- context [exec animate ?w] => set (w1 := w) end.
    assert (G : (0 <? targetFPS (this w1))%float && negb (isPaused (this w1))
                && (0 <? startTime (this w1)) = true).
    { apply Running_guard. unfold Running, started.
      change (targetFPS (this w1)) with (targetFPS (constructor params)).
      rewrite CF. split; [reflexivity|]. split; [reflexivity|exact HT]. }
    unfold exec, trace. rewrite (animate_active w1 G). cbv zeta.
    change (ignoreTargetFPS (this w1))
      with (ignoreTargetFPS (constructor params)).
    rewrite CI. simpl orb. cbn [fst snd].
    replace (now w1 - previousAnimateTime (this w1)) with (t1 - t0)
      by reflexivity.
    split; [|reflexivity].
    destruct params as [[f hd sh]|]; reflexivity. }
  destruct E as [E1 E2]. split; [exact E1|]. split; [exact E2|].
  intro Q. rewrite E2, Q, Z.sub_diag. reflexivity.
Qed.

Lemma startAnimation_uncapped_calls_at_once_witness :
  let r := startAnimation 7%nat None (page [] 1000) in
  snd r = [RequestFrame; Invoke Animate 7%nat (Some (1000 - 1000))]
  /\ performingFPS (this (snd (fst r))) = infinity.
Proof.
  assert (HT : 0 < clock (page [] 1000) (reads (page [] 1000)))
    by reflexivity.
  destruct (startAnimation_uncapped_calls_at_once 7%nat None (page [] 1000)
              eq_refl HT) as [E [_ F]].
  split; [exact E|]. apply F. reflexivity.
Defined.

(** X9. [startAnimation(h, { fps })] with a negative [fps] marks the
    animator as started but requests no frame and calls nothing, and from
    then on neither a frame nor another [start()] does anything: the
    animation does not run. *)
Theorem startAnimation_negative_fps_is_inert (h : Handler) (fps : number)
  (env : Host) :
  (fps <? 0)%float = true ->
  let r := startAnimation h (with_fps fps) env in
  let w := snd (fst r) in
  snd r = []
  /\ startTime (this w) = clock env (reads env)
  /\ animate w = (tt, w, [])
  /\ (clock env (reads env) <> 0 -> start w = (tt, w, [])).
Proof.
  intros HF r w.
  destruct (negative_truthy fps HF) as [N P0].
  destruct (constructor_truthy fps None None N) as [CF CI].
  fold (with_fps fps) in CF, CI.
  assert (E : r = (tt,
                   with_this
                     (set_previousAnimateTime (clock env (reads env))
                        (set_startTime (clock env (reads env))
                           (set_events Animate [h]
                              (constructor (with_fps fps)))))
                     (mkWorld (constructor (with_fps fps))
                        (mkHost (clock env) (S (reads env)))),
                   [])).
  { unfold r. rewrite startAnimation_run.
    rewrite start_stopped by reflexivity. cbv zeta.
    match goal with |- context [exec animate ?w] => set (w1 := w) end.
    assert (G : (0 <? targetFPS (this w1))%float && negb (isPaused (this w1))
                && (0 <? startTime (this w1)) = false).
    { change (targetFPS (this w1))
        with (targetFPS (constructor (with_fps fps))).
      rewrite CF, P0. reflexivity. }
    unfold exec, trace. rewrite (animate_idle w1 G). reflexivity. }
  assert (F : targetFPS (this w) = fps).
  { unfold w. rewrite E. exact CF. }
  assert (P : (0 <? targetFPS (this w))%float = false).
  { rewrite F. exact P0. }
  split; [now rewrite E|]. split; [unfold w; now rewrite E|]. split.
  - apply animate_idle. rewrite P. reflexivity.
  - intro NZ. apply start_not_stopped. unfold w. rewrite E. exact NZ.
Qed.

Lemma startAnimation_negative_fps_is_inert_witness :
  let r := startAnimation 7%nat (with_fps (-30)) (page [] 1000) in
  snd r = []
  /\ startTime (this (snd (fst r))) = 1000
  /\ animate (snd (fst r)) = (tt, snd (fst r), []).
Proof.
  assert (HF : (-30 <? 0)%float = true) by reflexivity.
  destruct (startAnimation_negative_fps_is_inert 7%nat (-30) (page [] 1000)
              HF) as (E1 & E2 & E3 & _).
  split; [exact E1|]. split; [exact E2|exact E3].
Defined.

(** * More on the lifecycle *)

Lemma runAll_clock (ops : list Op) (w : World) :
  clock (host (exec (runAll ops) w)) = clock (host w).
Proof.
  revert w. induction ops as [|o ops IH]; intro w; [reflexivity|].
  simpl runAll. rewrite exec_bind, IH. apply run_clock.
Qed.

Lemma lifecycle_calls_app (out1 out2 : list Effect) :
  lifecycle_calls (out1 ++ out2) = lifecycle_calls out1 ++ lifecycle_calls out2.
Proof. apply filter_app. Qed.

Lemma lifecycle_calls_calls (l : EventList) (evs : list Handler) :
  l <> Animate -> lifecycle_calls (calls l None evs) = calls l None evs.
Proof.
  intro N. induction evs as [|e evs IH]; [reflexivity|].
  simpl. destruct l; try contradiction; simpl; f_equal; exact IH.
Qed.

Lemma lifecycle_calls_frame (d : option Z) (evs : list Handler) :
  lifecycle_calls (calls Animate d evs) = [].
Proof. induction evs as [|e evs IH]; [reflexivity|exact IH]. Qed.

Lemma lifecycle_calls_animate (w : World) :
  lifecycle_calls (trace animate w) = [].
Proof.
  destruct (animate_performingFPS w) as [[[T|T] _]|[T _]]; rewrite T;
    try reflexivity.
  apply lifecycle_calls_frame.
Qed.

(** Replaces the state of the lifecycle by the phase that [H] proves it is
    in. *)
Ltac in_phase H :=
  let S0 := fresh "S" in
  pose proof H as S0;
  match type of S0 with
  | Lifecycle.state ?x = _ =>
      let st := fresh "st" in
      destruct x as [st ? ? ?]; simpl in S0; subst st
  end.

(** One operation: its lifecycle calls are those of the transition it
    makes. *)
Lemma run_lifecycle_calls (o : Op) (w : World) :
  consistent (this w) ->
  lifecycle_calls (trace (run o) w)
  = match transition (Lifecycle.state (lifecycle (this w)))
            (Lifecycle.state (Lifecycle.step o (lifecycle (this w)))) with
    | Some l => calls l None (events l (this w))
    | None => []
    end.
Proof.
  intros [I1 I2].
  assert (Same : forall s : Lifecycle.phase, transition s s = None)
    by (intros []; reflexivity).
  assert (Ru : startTime (this w) <> 0 -> isPaused (this w) = false ->
               Lifecycle.state (lifecycle (this w)) = Lifecycle.Running).
  { intros N P. unfold lifecycle. simpl.
    destruct (Z.eqb_spec (startTime (this w)) 0); [contradiction|].
    now rewrite P. }
  assert (Pa : isPaused (this w) = true ->
               Lifecycle.state (lifecycle (this w)) = Lifecycle.Paused).
  { intros P. specialize (I2 P). unfold lifecycle. simpl.
    destruct (Z.eqb_spec (startTime (this w)) 0); [lia|]. now rewrite P. }
  assert (Sp : startTime (this w) = 0 ->
               Lifecycle.state (lifecycle (this w)) = Lifecycle.Stopped).
  { intro Z0. unfold lifecycle. simpl. now rewrite Z0. }
  assert (PAUSE : forall w0 : World,
             this w0 = this w \/ this w0 = set_isPauseRequested true (this w) ->
             lifecycle_calls (trace pause w0)
             = match transition (Lifecycle.state (lifecycle (this w)))
                       (Lifecycle.state
                          (Lifecycle.pause (lifecycle (this w)))) with
               | Some l => calls l None (events l (this w))
               | None => []
               end).
  { intros w0 E. unfold trace. rewrite pause_run.
    assert (E1 : startTime (this w0) = startTime (this w))
      by (destruct E as [E|E]; rewrite E; reflexivity).
    assert (E2 : isPaused (this w0) = isPaused (this w))
      by (destruct E as [E|E]; rewrite E; reflexivity).
    assert (E3 : pauseEvents (this w0) = pauseEvents (this w))
      by (destruct E as [E|E]; rewrite E; reflexivity).
    rewrite E1, E2, E3. unfold Lifecycle.pause.
    destruct (Z.ltb_spec 0 (startTime (this w)));
      destruct (isPaused (this w)) eqn:P.
    - in_phase (Pa eq_refl). reflexivity.
    - assert (N : startTime (this w) <> 0) by lia.
      in_phase (Ru N eq_refl). simpl. now apply lifecycle_calls_calls.
    - in_phase (Pa eq_refl). reflexivity.
    - assert (Z0 : startTime (this w) = 0) by lia.
      in_phase (Sp Z0). reflexivity. }
  assert (RESUME : forall (w0 : World) (flag : bool),
             this w0 = set_isPauseRequested flag (this w) ->
             lifecycle_calls (trace resume w0)
             = match transition (Lifecycle.state (lifecycle (this w)))
                       (Lifecycle.state
                          (Lifecycle.resume
                             (Lifecycle.request flag (lifecycle (this w)))))
               with
               | Some l => calls l None (events l (this w))
               | None => []
               end).
  { intros w0 flag E.
    assert (E1 : isPauseRequested (this w0) = flag) by (now rewrite E).
    assert (E2 : isPaused (this w0) = isPaused (this w)) by (now rewrite E).
    assert (E3 : resumeEvents (this w0) = resumeEvents (this w))
      by (now rewrite E).
    unfold Lifecycle.resume, Lifecycle.request.
    destruct (negb (isPauseRequested (this w0)) && isPaused (this w0)) eqn:G.
    - apply andb_true_iff in G as [R P]. apply negb_true_iff in R.
      unfold trace. rewrite (resume_paused w0 R P). cbv zeta. cbn [snd].
      rewrite lifecycle_calls_app.
      match goal with
      | |- context [trace animate ?x] => rewrite (lifecycle_calls_animate x)
      end.
      rewrite app_nil_r, E3, lifecycle_calls_calls by discriminate.
      rewrite E2 in P. rewrite E1 in R. clear E1. subst flag.
      in_phase (Pa P). reflexivity.
    - unfold trace. rewrite (resume_idle w0 G).
      cbn [snd lifecycle_calls filter].
      rewrite E1, E2 in G.
      destruct (isPaused (this w)) eqn:P.
      + in_phase (Pa eq_refl). destruct flag; [reflexivity|discriminate].
      + destruct (Z.eq_dec (startTime (this w)) 0) as [Z0|Z0].
        * in_phase (Sp Z0). reflexivity.
        * in_phase (Ru Z0 eq_refl). reflexivity. }
  destruct o; simpl run; simpl Lifecycle.step;
    try (rewrite Same; reflexivity).
  - (* start *)
    unfold Lifecycle.start, trace.
    destruct (Z.eq_dec (startTime (this w)) 0) as [E|E].
    + rewrite (start_stopped w E). cbv zeta. cbn [snd].
      rewrite lifecycle_calls_app, lifecycle_calls_animate, app_nil_r.
      rewrite lifecycle_calls_calls by discriminate.
      in_phase (Sp E). reflexivity.
    + rewrite (start_not_stopped w E). cbn [snd lifecycle_calls filter].
      destruct (isPaused (this w)) eqn:P.
      * in_phase (Pa eq_refl). reflexivity.
      * in_phase (Ru E eq_refl). reflexivity.
  - (* pause *)
    apply PAUSE. left. reflexivity.
  - (* resume *)
    rewrite (RESUME w (isPauseRequested (this w))).
    + unfold Lifecycle.request, lifecycle. reflexivity.
    + now rewrite set_isPauseRequested_same.
  - (* stop *)
    unfold Lifecycle.stop, trace. rewrite stop_run.
    destruct (Z.ltb_spec 0 (startTime (this w))).
    + cbn [snd]. rewrite lifecycle_calls_calls by discriminate.
      destruct (isPaused (this w)) eqn:P.
      * in_phase (Pa eq_refl). reflexivity.
      * assert (N : startTime (this w) <> 0) by lia.
        in_phase (Ru N eq_refl). reflexivity.
    + assert (Z0 : startTime (this w) = 0) by lia.
      in_phase (Sp Z0). reflexivity.
  - (* subscribe *)
    rewrite subscribe_run. simpl. now rewrite Same.
  - (* unsubscribe *)
    unfold trace. rewrite removeEvent_run.
    destruct (_ =? _); simpl; now rewrite Same.
  - (* hidden *)
    unfold trace at 1. rewrite onHidden_run.
    change (Lifecycle.pauseOnHidden (lifecycle (this w)))
      with (pauseOnHidden (this w)).
    destruct (pauseOnHidden (this w)).
    + fold (trace pause (with_this (set_isPauseRequested true (this w)) w)).
      rewrite PAUSE by (right; reflexivity).
      destruct (lifecycle (this w)) as [[] ? ? ?]; reflexivity.
    + simpl. now rewrite Same.
  - (* shown *)
    unfold trace at 1. rewrite onShow_run.
    change (Lifecycle.resumeOnShown (lifecycle (this w)))
      with (resumeOnShown (this w)).
    destruct (resumeOnShown (this w)).
    + fold (trace resume (with_this (set_isPauseRequested false (this w)) w)).
      now rewrite (RESUME _ false) by reflexivity.
    + simpl. now rewrite Same.
  - (* frame *)
    rewrite lifecycle_calls_animate. now rewrite Same.
Qed.

(** X10. Along any session on a new animator (clock after the epoch),
    start, pause, resume and stop subscribers are called exactly when the
    lifecycle changes state, and then all the subscribers of that one
    event are called, once each and in order of registration: an
    operation that leaves the state where it is (a second [start()],
    [pause()] while stopped, [resume()] while running or while the window
    keeps the animator paused, [stop()] while stopped, a "hidden"
    broadcast on a paused animator) calls none of them. *)
Theorem lifecycle_events_follow_transitions (params : option Params.t)
  (env : Host) (ops : list Op) (o : Op) :
  clock_positive env ->
  let w := exec (runAll ops) (mkWorld (constructor params) env) in
  let s := Lifecycle.steps ops (Lifecycle.init params) in
  lifecycle_calls (trace (run o) w)
  = match transition (Lifecycle.state s)
            (Lifecycle.state (Lifecycle.step o s)) with
    | Some l => calls l None (events l (this w))
    | None => []
    end.
Proof.
  intros C w s.
  destruct (runAll_refines ops (mkWorld (constructor params) env) C
              (constructor_consistent params)) as [L I].
  simpl this in L. rewrite constructor_lifecycle in L.
  fold w in L, I. fold s in L.
  rewrite (run_lifecycle_calls o w I), L. reflexivity.
Qed.

Lemma lifecycle_events_follow_transitions_witness :
  clock_positive (page [] 1000)
  /\ let ops := [OpSubscribe Resume 7%nat; OpStart; OpPause] in
     let w := exec (runAll ops)
                (mkWorld (constructor None) (page [] 1000)) in
     let s := Lifecycle.steps ops (Lifecycle.init None) in
     lifecycle_calls (trace (run OpShown) w)
     = match transition (Lifecycle.state s)
               (Lifecycle.state (Lifecycle.step OpShown s)) with
       | Some l => calls l None (events l (this w))
       | None => []
       end.
Proof.
  assert (C : clock_positive (page [] 1000)).
  { intro n. simpl. destruct n as [|n]; [|destruct n]; reflexivity. }
  split; [exact C|].
  apply (lifecycle_events_follow_transitions None (page [] 1000)
           [OpSubscribe Resume 7%nat; OpStart; OpPause] OpShown C).
Defined.

(** * The options and the window *)

(** What an operation does to the options and to the rate. *)
Lemma run_options (o : Op) (w : World) :
  let a := this w in
  let a' := this (exec (run o) w) in
  resumeOnShown a'
  = match o with OpSetResumeOnShown b => b | _ => resumeOnShown a end
  /\ pauseOnHidden a'
     = match o with OpSetPauseOnHidden b => b | _ => pauseOnHidden a end
  /\ targetFPS a'
     = match o with
       | OpSetTargetFPS fps => Math_min fps MAX_FPS
       | _ => targetFPS a
       end
  /\ ignoreTargetFPS a' = ignoreTargetFPS a.
Proof.
  assert (A : forall w1,
             resumeOnShown (this w1) = resumeOnShown (this w)
             /\ pauseOnHidden (this w1) = pauseOnHidden (this w)
             /\ targetFPS (this w1) = targetFPS (this w)
             /\ ignoreTargetFPS (this w1) = ignoreTargetFPS (this w) ->
             resumeOnShown (this (exec animate w1)) = resumeOnShown (this w)
             /\ pauseOnHidden (this (exec animate w1))
                = pauseOnHidden (this w)
             /\ targetFPS (this (exec animate w1)) = targetFPS (this w)
             /\ ignoreTargetFPS (this (exec animate w1))
                = ignoreTargetFPS (this w)).
  { intros w1 (E1 & E2 & E3 & E4).
    destruct (animate_frame w1) as (_ & _ & _ & H4 & H5 & H6 & H7 & _).
    rewrite H4, H5, H6, H7. tauto. }
  intros a a'. unfold a', a. destruct o; simpl run.
  - destruct (Z.eq_dec (startTime (this w)) 0) as [E|E]; unfold exec.
    + rewrite (start_stopped w E). cbv zeta. cbn [fst snd].
      apply A. repeat split.
    + rewrite (start_not_stopped w E). repeat split.
  - unfold exec. rewrite pause_run. destruct (_ && _); repeat split.
  - destruct (negb (isPauseRequested (this w)) && isPaused (this w)) eqn:G;
      unfold exec.
    + apply andb_true_iff in G as [R P]. apply negb_true_iff in R.
      rewrite (resume_paused w R P). cbv zeta. cbn [fst snd].
      apply A. repeat split.
    + rewrite (resume_idle w G). repeat split.
  - unfold exec. rewrite stop_run. destruct (0 <? _); repeat split.
  - repeat split.
  - repeat split.
  - repeat split.
  - repeat split.
  - rewrite subscribe_run. destruct l; repeat split.
  - unfold exec. rewrite removeEvent_run.
    destruct (_ =? _); [repeat split|]. destruct l; repeat split.
  - unfold exec. rewrite onHidden_run.
    destruct (pauseOnHidden (this w)) eqn:F;
      [|simpl; rewrite ?F; repeat split].
    rewrite pause_run. destruct (_ && _); simpl; rewrite ?F; repeat split.
  - unfold exec. rewrite onShow_run.
    destruct (resumeOnShown (this w)) eqn:F;
      [|simpl; rewrite ?F; repeat split].
    set (w0 := with_this _ w).
    destruct (negb (isPauseRequested (this w0)) && isPaused (this w0)) eqn:G.
    + apply andb_true_iff in G as [R P]. apply negb_true_iff in R.
      rewrite (resume_paused w0 R P). cbv zeta. cbn [fst snd].
      apply A. repeat split; exact F.
    + rewrite (resume_idle w0 G). simpl. rewrite ?F. repeat split.
  - apply A. repeat split.
Qed.

(** Who calls the resume subscribers. *)
Lemma resume_call_origin (o : Op) (w : World) (event : Handler)
  (d : option Z) :
  In (Invoke Resume event d) (trace (run o) w) ->
  isPaused (this w) = true
  /\ (o = OpResume /\ isPauseRequested (this w) = false
      \/ o = OpShown /\ resumeOnShown (this w) = true).
Proof.
  assert (An : forall w1, ~ In (Invoke Resume event d) (trace animate w1)).
  { intros w1 H. apply animate_trace in H as [H|(ev & dl & H & _)];
      discriminate. }
  assert (Cl : forall l0 evs, l0 <> Resume ->
             ~ In (Invoke Resume event d) (calls l0 None evs)).
  { intros l0 evs N H. apply In_calls in H as [ev [H1 _]].
    injection H1 as <- _ _. now apply N. }
  destruct o; simpl run; unfold trace at 1.
  - destruct (Z.eq_dec (startTime (this w)) 0) as [E|E].
    + rewrite (start_stopped w E). cbv zeta. cbn [snd]. intro H.
      apply in_app_or in H as [H|H]; [apply Cl in H|apply An in H];
        try contradiction. discriminate.
    + rewrite (start_not_stopped w E). intros [].
  - rewrite pause_run. destruct (_ && _); simpl; [|intros []].
    intro H. apply Cl in H; [contradiction|discriminate].
  - destruct (negb (isPauseRequested (this w)) && isPaused (this w)) eqn:G.
    + apply andb_true_iff in G as [R P]. apply negb_true_iff in R.
      intros _. split; [exact P|]. left. now split.
    + rewrite (resume_idle w G). intros [].
  - rewrite stop_run. destruct (0 <? _); simpl; [|intros []].
    intro H. apply Cl in H; [contradiction|discriminate].
  - intros [].
  - intros [].
  - intros [].
  - intros [].
  - rewrite subscribe_run. intros [].
  - rewrite removeEvent_run. destruct (_ =? _); intros [].
  - rewrite onHidden_run. destruct (pauseOnHidden (this w)); [|intros []].
    rewrite pause_run. destruct (_ && _); simpl; [|intros []].
    intro H. apply Cl in H; [contradiction|discriminate].
  - rewrite onShow_run. destruct (resumeOnShown (this w)) eqn:F; [|intros []].
    set (w0 := with_this _ w).
    destruct (negb (isPauseRequested (this w0)) && isPaused (this w0)) eqn:G.
    + apply andb_true_iff in G as [R P]. intros _.
      split; [exact P|]. right. now split.
    + rewrite (resume_idle w0 G). intros [].
  - intro H. now apply An in H.
Qed.

(** X11. An animator that the window has paused and whose [resumeOnShown]
    is off stays held: as long as no call sets [resumeOnShown], whatever
    is called on it ([resume()], "shown" broadcasts, [stop()] and
    [start()] again, ...), [isPauseRequested] stays set and no resume
    subscriber is ever called. *)
Theorem window_pause_holds_without_resumeOnShown (ops : list Op)
  (w : World) :
  isPauseRequested (this w) = true ->
  resumeOnShown (this w) = false ->
  keeps_resumeOnShown ops ->
  isPauseRequested (this (exec (runAll ops) w)) = true
  /\ resumeOnShown (this (exec (runAll ops) w)) = false
  /\ forall event d, ~ In (Invoke Resume event d) (trace (runAll ops) w).
Proof.
  revert w. induction ops as [|o ops IH]; intros w R F K.
  - repeat split; try assumption. intros event d [].
  - assert (Ko : forall b, o <> OpSetResumeOnShown b).
    { intros b E. apply (K b). left. exact E. }
    assert (R1 : isPauseRequested (this (exec (run o) w)) = true).
    { destruct o; try (apply run_keeps_pause_request;
                       [discriminate|exact R]).
      simpl run. unfold exec. rewrite onShow_run, F. exact R. }
    assert (F1 : resumeOnShown (this (exec (run o) w)) = false).
    { destruct (run_options o w) as (H & _). rewrite H.
      destruct o; try exact F. exfalso. now apply (Ko b). }
    assert (K1 : keeps_resumeOnShown ops).
    { intros b I. apply (K b). right. exact I. }
    destruct (IH _ R1 F1 K1) as (R2 & F2 & N2).
    simpl runAll. rewrite exec_bind, trace_bind.
    split; [exact R2|]. split; [exact F2|].
    intros event d I. apply in_app_or in I as [I|I].
    + apply resume_call_origin in I as [_ [[_ I]|[_ I]]]; congruence.
    + exact (N2 event d I).
Qed.

Lemma window_pause_holds_without_resumeOnShown_witness :
  let ops := [OpShown; OpResume; OpStop; OpStart; OpPause; OpResume] in
  isPauseRequested (this (exec (runAll ops) hidden_for_good)) = true
  /\ resumeOnShown (this (exec (runAll ops) hidden_for_good)) = false
  /\ forall event d,
       ~ In (Invoke Resume event d) (trace (runAll ops) hidden_for_good).
Proof.
  apply window_pause_holds_without_resumeOnShown.
  - reflexivity.
  - reflexivity.
  - intros b H. simpl in H.
    repeat (destruct H as [H|H]; [discriminate|]). exact H.
Defined.

(** X12. A "shown" broadcast resumes a paused animator whose
    [resumeOnShown] is on, whoever paused it: also after an explicit
    [pause()] by the caller, [isPaused] and [isPauseRequested] are both
    clear afterwards and the resume subscribers have been called, once
    each. *)
Theorem shown_resumes_any_pause (w : World) :
  resumeOnShown (this w) = true ->
  isPaused (this w) = true ->
  isPaused (this (exec onShow w)) = false
  /\ isPauseRequested (this (exec onShow w)) = false
  /\ lifecycle_calls (trace onShow w)
     = calls Resume None (resumeEvents (this w)).
Proof.
  intros F P. unfold exec, trace. rewrite onShow_run, F.
  set (w0 := with_this (set_isPauseRequested false (this w)) w).
  assert (R : isPauseRequested (this w0) = false) by reflexivity.
  assert (P0 : isPaused (this w0) = true) by exact P.
  rewrite (resume_paused w0 R P0). cbv zeta. cbn [fst snd].
  match goal with
  | |- context [exec animate ?x] =>
      destruct (animate_frame x) as (_ & H2 & H3 & _);
      rewrite H2, H3, lifecycle_calls_app, (lifecycle_calls_animate x)
  end.
  rewrite app_nil_r, lifecycle_calls_calls by discriminate.
  repeat split.
Qed.

Lemma shown_resumes_any_pause_witness :
  isPaused (this (exec onShow paused_by_caller)) = false
  /\ isPauseRequested (this (exec onShow paused_by_caller)) = false
  /\ lifecycle_calls (trace onShow paused_by_caller)
     = calls Resume None (resumeEvents (this paused_by_caller)).
Proof.
  apply shown_resumes_any_pause; reflexivity.
Defined.

(** X13. The cap on the target rate is kept along a session whose
    [setTargetFPS] calls pass numbers, not NaN: if the rate is at most 60
    (as it is for an animator built without [fps] or with an [fps] of at
    most 60), or if the session calls [setTargetFPS] at least once, then
    after the session the rate is at most 60. *)
Theorem rate_cap_is_kept (ops : list Op) (w : World) :
  numeric_rates ops ->
  (targetFPS (this w) <=? MAX_FPS)%float = true
  \/ (exists fps, In (OpSetTargetFPS fps) ops) ->
  (targetFPS (this (exec (runAll ops) w)) <=? MAX_FPS)%float = true.
Proof.
  revert w. induction ops as [|o ops IH]; intros w Nu H.
  - destruct H as [H|[fps []]]. exact H.
  - assert (Nu' : numeric_rates ops).
    { intros fps I. apply Nu. right. exact I. }
    simpl runAll. rewrite exec_bind. apply (IH _ Nu').
    destruct (run_options o w) as (_ & _ & T & _).
    destruct (match o with OpSetTargetFPS _ => true | _ => false end) eqn:S.
    + left. rewrite T. destruct o; try discriminate S.
      apply Math_min_le_max. apply Nu. left. reflexivity.
    + destruct H as [H|[fps [H|H]]].
      * left. rewrite T. destruct o; try exact H. discriminate S.
      * subst o. discriminate S.
      * right. exists fps. exact H.
Qed.

Lemma rate_cap_is_kept_witness :
  (targetFPS
     (this (exec (runAll [OpStart; OpSetTargetFPS 90; OpFrame])
              (mkWorld (constructor (with_fps 120)) (page [] 1000))))
   <=? MAX_FPS)%float = true.
Proof.
  apply rate_cap_is_kept.
  - intros fps H. simpl in H.
    destruct H as [H|[H|[H|[]]]]; try discriminate H.
    injection H as <-. reflexivity.
  - right. exists 90%float. right. left. reflexivity.
Defined.

(** [setTargetFPS(NaN)] stores NaN, which is not at most 60. *)
Lemma setTargetFPS_nan_is_kept (w : World) :
  targetFPS (this (exec (setTargetFPS nan) w)) = nan
  /\ (targetFPS (this (exec (setTargetFPS nan) w)) <=? MAX_FPS)%float
     = false.
Proof. split; reflexivity. Qed.

(** * The chain of frame requests *)

Lemma requested_app (out1 out2 : list Effect) :
  requested (out1 ++ out2) = (requested out1 + requested out2)%nat.
Proof.
  induction out1 as [|e out1 IH]; [reflexivity|].
  destruct e; simpl; now rewrite IH.
Qed.

Lemma requested_calls (l : EventList) (d : option Z) (evs : list Handler) :
  requested (calls l d evs) = 0%nat.
Proof. induction evs as [|e evs IH]; [reflexivity|exact IH]. Qed.

(** A tick of a Running animator requests exactly one frame. *)
Lemma requested_animate (w : World) :
  Running (this w) -> requested (trace animate w) = 1%nat.
Proof.
  intro R. apply Running_guard in R. unfold trace.
  rewrite (animate_active w R). cbv zeta.
  destruct (ignoreTargetFPS (this w) || _); simpl; [|reflexivity].
  now rewrite requested_calls.
Qed.

Lemma Math_min_positive (x : number) :
  (0 <? x)%float = true -> (0 <? Math_min x MAX_FPS)%float = true.
Proof.
  intro H. assert (N : is_nan x = false).
  { rewrite ltb_spec in H. unfold SFltb in H.
    destruct (SFcompare (Prim2SF 0) (Prim2SF x)) as [c|] eqn:E;
      [|discriminate].
    apply (compared_is_not_nan _ _ _ E). }
  destruct (Math_min_cases x N) as [[E _]|E]; rewrite E;
    [exact H|reflexivity].
Qed.

(** An operation that leaves the animator started and not paused either
    found it so, or requested a frame. *)
Lemma run_requests_on_restart (o : Op) (w : World) :
  (0 <? targetFPS (this w))%float = true ->
  consistent (this w) ->
  0 < now w ->
  started (this (exec (run o) w)) ->
  isPaused (this (exec (run o) w)) = false ->
  (started (this w) /\ isPaused (this w) = false)
  \/ (1 <= requested (trace (run o) w))%nat.
Proof.
  intros HF [I1 I2] Hn.
  assert (A : forall w1 pre,
             targetFPS (this w1) = targetFPS (this w) ->
             isPaused (this w1) = false ->
             0 < startTime (this w1) ->
             (1 <= requested (pre ++ trace animate w1))%nat).
  { intros w1 pre E1 E2 E3. rewrite requested_app, requested_animate; [lia|].
    unfold Running, started. rewrite E1. auto. }
  destruct o; simpl run.
  - destruct (Z.eq_dec (startTime (this w)) 0) as [E|E]; unfold exec, trace.
    + rewrite (start_stopped w E). cbv zeta. cbn [fst snd]. intros _ _.
      right. apply A; [reflexivity| |exact Hn].
      simpl. destruct (isPaused (this w)) eqn:P; [|reflexivity].
      specialize (I2 eq_refl). lia.
    + rewrite (start_not_stopped w E). cbn [fst snd]. intros S P.
      left. now split.
  - unfold exec. rewrite pause_run. destruct (_ && _); cbn [fst snd].
    + intros _ P. discriminate P.
    + intros S P. left. now split.
  - destruct (negb (isPauseRequested (this w)) && isPaused (this w)) eqn:G;
      unfold exec, trace.
    + apply andb_true_iff in G as [R P]. apply negb_true_iff in R.
      rewrite (resume_paused w R P). cbv zeta. cbn [fst snd]. intros _ _.
      right. apply A; [reflexivity|reflexivity|]. simpl. now apply I2.
    + rewrite (resume_idle w G). cbn [fst snd]. intros S P. left. now split.
  - unfold exec. rewrite stop_run. destruct (Z.ltb_spec 0 (startTime (this w)));
      cbn [fst snd].
    + unfold started. simpl. intros S _. lia.
    + intros S P. left. now split.
  - intros S P. left. now split.
  - intros S P. left. now split.
  - intros S P. left. now split.
  - intros S P. left. now split.
  - rewrite subscribe_run. destruct l; intros S P; left; now split.
  - unfold exec. rewrite removeEvent_run.
    destruct (_ =? _); [|destruct l]; intros S P; left; now split.
  - unfold exec. rewrite onHidden_run.
    destruct (pauseOnHidden (this w)); [|intros S P; left; now split].
    rewrite pause_run. destruct (_ && _); cbn [fst snd].
    + intros _ P. discriminate P.
    + intros S P. left. now split.
  - unfold exec, trace. rewrite onShow_run.
    destruct (resumeOnShown (this w)); [|intros S P; left; now split].
    set (w0 := with_this _ w).
    destruct (negb (isPauseRequested (this w0)) && isPaused (this w0)) eqn:G.
    + apply andb_true_iff in G as [R P]. apply negb_true_iff in R.
      rewrite (resume_paused w0 R P). cbv zeta. cbn [fst snd]. intros _ _.
      right. apply A; [reflexivity|reflexivity|]. simpl. now apply I2.
    + rewrite (resume_idle w0 G). cbn [fst snd]. intros S P.
      left. now split.
  - intros S P. destruct (animate_frame w) as (H1 & H2 & _).
    unfold started in S. rewrite H1 in S. rewrite H2 in P. left. now split.
Qed.

Lemma run_chain_alive (o : Op) (pending : nat) (w : World) :
  chain_alive pending w ->
  (forall fps, o = OpSetTargetFPS fps -> (0 <? fps)%float = true) ->
  o <> OpFrame ->
  chain_alive (pending + requested (trace (run o) w)) (exec (run o) w).
Proof.
  intros (HF & I & C & L) Pos NF.
  destruct (run_refines o w C I) as [_ I'].
  split; [|split; [exact I'|split]].
  - destruct (run_options o w) as (_ & _ & T & _). rewrite T.
    destruct o; try exact HF. apply Math_min_positive. now apply Pos.
  - intro n. rewrite run_clock. apply C.
  - intros S P.
    destruct (run_requests_on_restart o w HF I (C _) S P) as [[S0 P0]|R].
    + specialize (L S0 P0). lia.
    + lia.
Qed.

Lemma frame_chain_alive (pending : nat) (w : World) :
  chain_alive (S pending) w ->
  chain_alive (pending + requested (trace animate w)) (exec animate w).
Proof.
  intros (HF & I & C & L).
  destruct (animate_frame w) as (H1 & H2 & _ & _ & _ & H6 & _ & _ & H9).
  split; [now rewrite H6|]. split; [now apply animate_consistent|]. split.
  - intro n. rewrite H9. apply C.
  - intros S P. unfold started in S. rewrite H1 in S. rewrite H2 in P.
    rewrite requested_animate; [lia|]. repeat split; assumption.
Qed.

Lemma drive_chain_alive (ops : list Op) (pending : nat) (w : World)
  (pending' : nat) (w' : World) :
  chain_alive pending w ->
  positive_rates ops ->
  drive ops pending w = Some (pending', w') ->
  chain_alive pending' w'.
Proof.
  revert pending w. induction ops as [|o ops IH]; intros pending w J Pos D.
  - injection D as <- <-. exact J.
  - assert (Pos' : positive_rates ops).
    { intros fps I. apply Pos. right. exact I. }
    assert (Po : forall fps,
                 o = OpSetTargetFPS fps -> (0 <? fps)%float = true).
    { intros fps E. apply Pos. left. exact E. }
    destruct o;
      try (cbn [drive] in D;
           apply (IH _ _ (run_chain_alive _ _ _ J Po ltac:(discriminate))
                    Pos' D)).
    cbn [drive] in D. destruct pending as [|pending]; [discriminate|].
    apply (IH _ _ (frame_chain_alive _ _ J) Pos' D).
Qed.

(** X14. The chain of ticks does not die while it is needed.  On a new
    animator with a positive target rate, along any session whose
    [setTargetFPS] calls pass positive rates and whose frames answer
    outstanding requests (clock after the epoch): whenever the animator is
    started and not paused, at least one frame request is outstanding. *)
Theorem running_animator_has_a_frame_pending (params : option Params.t)
  (env : Host) (ops : list Op) (pending : nat) (w : World) :
  clock_positive env ->
  (0 <? targetFPS (constructor params))%float = true ->
  positive_rates ops ->
  drive ops 0 (mkWorld (constructor params) env) = Some (pending, w) ->
  started (this w) ->
  isPaused (this w) = false ->
  (1 <= pending)%nat.
Proof.
  intros C HF Pos D.
  assert (J : chain_alive 0 (mkWorld (constructor params) env)).
  { split; [exact HF|]. split; [apply constructor_consistent|].
    split; [exact C|]. unfold started. simpl. lia. }
  apply (drive_chain_alive ops 0 _ pending w J Pos D).
Qed.

Lemma running_animator_has_a_frame_pending_witness :
  match drive [OpStart; OpFrame; OpSetTargetFPS 30; OpPause; OpFrame;
               OpResume] 0 fresh with
  | Some (pending, w) =>
      started (this w) /\ isPaused (this w) = false /\ (1 <= pending)%nat
  | None => False
  end.
Proof.
  destruct (drive [OpStart; OpFrame; OpSetTargetFPS 30; OpPause; OpFrame;
                   OpResume] 0 fresh) as [[pending w]|] eqn:D.
  - assert (C : clock_positive (page [] 1000)).
    { intro n. simpl. destruct n as [|n]; [|destruct n]; reflexivity. }
    assert (HF : (0 <? targetFPS (constructor None))%float = true)
      by reflexivity.
    assert (Pos : positive_rates [OpStart; OpFrame; OpSetTargetFPS 30;
                                  OpPause; OpFrame; OpResume]).
    { intros fps I. simpl in I.
      destruct I as [I|[I|[I|[I|[I|[I|[]]]]]]]; try discriminate I.
      injection I as <-. reflexivity. }
    assert (S : started (this w) /\ isPaused (this w) = false).
    { vm_compute in D. injection D as _ <-. split; reflexivity. }
    split; [apply S|]. split; [apply S|].
    exact (running_animator_has_a_frame_pending None (page [] 1000) _
             pending w C HF Pos D (proj1 S) (proj2 S)).
  - vm_compute in D. discriminate D.
Defined.

Lemma drive_frames (n : nat) (pending : nat) (w : World) :
  Running (this w) ->
  exists w',
    drive (repeat OpFrame n) (S pending) w = Some (S pending, w')
    /\ Running (this w').
Proof.
  revert w. induction n as [|n IH]; intros w R.
  - exists w. now split.
  - simpl repeat. cbn [drive]. rewrite (requested_animate w R).
    replace (pending + 1)%nat with (S pending) by lia.
    apply IH. destruct (animate_frame w) as (H1 & H2 & _ & _ & _ & H6 & _).
    destruct R as (RF & RP & RS). unfold Running, started.
    rewrite H1, H2, H6. now repeat split.
Qed.

(** X15. Nothing cancels a frame request.  [pause()] followed by
    [resume()] on a Running animator that the window does not hold
    ([isPauseRequested] clear), before the outstanding frame has run,
    leaves one more request outstanding than before, and however many
    frames run after that, each tick of the running animator requests the
    next one, so the count never comes back down. *)
Theorem pause_resume_adds_a_chain (pending n : nat) (w : World) :
  Running (this w) ->
  isPauseRequested (this w) = false ->
  exists w1 w2,
    drive [OpPause; OpResume] (S pending) w = Some (S (S pending), w1)
    /\ Running (this w1)
    /\ drive (repeat OpFrame n) (S (S pending)) w1
       = Some (S (S pending), w2)
    /\ Running (this w2).
Proof.
  intros (RF & RP & RS) RQ.
  assert (G : (0 <? startTime (this w)) && negb (isPaused (this w)) = true).
  { rewrite RP. apply andb_true_iff. split; [now apply Z.ltb_lt|reflexivity]. }
  set (wp := with_this (set_isPaused true (this w)) w).
  assert (EP : pause w = (tt, wp, calls Pause None (pauseEvents (this w)))).
  { rewrite pause_run, G. reflexivity. }
  assert (ER := resume_paused wp RQ eq_refl). cbv zeta in ER.
  set (w0 := with_this _ (after_read wp)) in ER.
  assert (R0 : Running (this w0)) by (repeat split; assumption).
  assert (R1 : Running (this (exec animate w0))).
  { destruct (animate_frame w0) as (H1 & H2 & _ & _ & _ & H6 & _).
    unfold Running, started. rewrite H1, H2, H6. exact R0. }
  destruct (drive_frames n (S pending) (exec animate w0) R1) as (w2 & D2 & R2).
  exists (exec animate w0), w2.
  split; [|split; [exact R1|split; [exact D2|exact R2]]].
  cbn [drive run].
  assert (X1 : exec pause w = wp) by (unfold exec; now rewrite EP).
  assert (T1 : trace pause w = calls Pause None (pauseEvents (this w)))
    by (unfold trace; now rewrite EP).
  rewrite X1, T1.
  assert (X2 : exec resume wp = exec animate w0)
    by (unfold exec at 1; now rewrite ER).
  assert (T2 : trace resume wp
               = calls Resume None (resumeEvents (this wp))
                 ++ trace animate w0)
    by (unfold trace at 1; now rewrite ER).
  rewrite X2, T2.
  rewrite !requested_app, !requested_calls, (requested_animate w0 R0).
  f_equal. f_equal. lia.
Qed.

Lemma pause_resume_adds_a_chain_witness :
  exists w1 w2,
    drive [OpPause; OpResume] 1 (started_at_30 34) = Some (2%nat, w1)
    /\ Running (this w1)
    /\ drive (repeat OpFrame 3) 2 w1 = Some (2%nat, w2)
    /\ Running (this w2).
Proof.
  apply (pause_resume_adds_a_chain 0 3 (started_at_30 34)).
  - repeat split.
  - reflexivity.
Defined.

(** On a Running animator that the window holds ([isPauseRequested] set,
    as after a "hidden" broadcast before [start()]), [resume()] does not go
    through: [pause()] and [resume()] leave the animator paused and the
    count of outstanding requests as it was. *)
Lemma pause_resume_while_held (pending : nat) (w : World) :
  Running (this w) ->
  isPauseRequested (this w) = true ->
  drive [OpPause; OpResume] pending w
  = Some (pending, with_this (set_isPaused true (this w)) w).
Proof.
  intros (RF & RP & RS) RQ.
  assert (G : (0 <? startTime (this w)) && negb (isPaused (this w)) = true).
  { rewrite RP. apply andb_true_iff. split; [now apply Z.ltb_lt|reflexivity]. }
  set (wp := with_this (set_isPaused true (this w)) w).
  assert (EP : pause w = (tt, wp, calls Pause None (pauseEvents (this w)))).
  { rewrite pause_run, G. reflexivity. }
  assert (ER : resume wp = (tt, wp, [])).
  { apply resume_idle. simpl. rewrite RQ. reflexivity. }
  cbn [drive run]. unfold exec, trace. rewrite EP. cbn [fst snd].
  rewrite ER. cbn [fst snd]. rewrite requested_calls. simpl requested.
  rewrite !Nat.add_0_r. reflexivity.
Qed.

(** * The window's broadcasts *)

Lemma onHidden_result (a : Animator) (env : Host) :
  onHidden (mkWorld a env)
  = (tt, mkWorld (hidden a) env,
     if pauseOnHidden a && ((0 <? startTime a) && negb (isPaused a))
     then calls Pause None (pauseEvents a) else []).
Proof.
  rewrite onHidden_run. unfold hidden. simpl this.
  destruct (pauseOnHidden a); [|reflexivity].
  rewrite pause_run. simpl.
  destruct ((0 <? startTime a) && negb (isPaused a)); reflexivity.
Qed.

Lemma each_listener_hidden (i : nat) (l : list Animator) (env : Host) :
  each_listener onHidden i l env = (map hidden l, env, hidden_calls i l).
Proof.
  revert i. induction l as [|a l IH]; intro i; [reflexivity|].
  simpl each_listener. rewrite onHidden_result. cbn [this host].
  rewrite IH. simpl.
  destruct (pauseOnHidden a && ((0 <? startTime a) && negb (isPaused a)));
    reflexivity.
Qed.

(** X16. A "hidden" broadcast goes through the listeners in order of
    construction and reads no clock.  Every animator whose [pauseOnHidden]
    is on is marked as held by the window, also when it is stopped or
    already paused; those of them that were started and running are
    paused and their pause subscribers called; the other animators, and
    every other field, are left as they were.  An animator constructed
    since is reached too, after the others. *)
Theorem hidden_broadcast_reaches_every_animator (p : Page) :
  onWindowHidden p
  = (mkPage (map hidden (windowListeners p)) (pageHost p),
     hidden_calls 0 (windowListeners p))
  /\ forall params,
       windowListeners (fst (onWindowHidden (new_Animator params p)))
       = map hidden (windowListeners p) ++ [hidden (constructor params)].
Proof.
  split.
  - unfold onWindowHidden. rewrite each_listener_hidden. reflexivity.
  - intro params. unfold onWindowHidden. rewrite each_listener_hidden.
    simpl. apply map_app.
Qed.

Lemma dispatch_reports (e : DomEvent) (p : Page) :
  dispatch e p = if reports_hidden e then onWindowHidden p else onWindowShow p.
Proof. destruct e; try reflexivity; simpl; unfold onWindowChange; reflexivity. Qed.

(** After [onHidden()] there is nothing left for [onHidden()] to do. *)
Lemma onHidden_settles (a : Animator) (env : Host) :
  settled onHidden (this (exec onHidden (mkWorld a env))).
Proof.
  unfold exec. rewrite onHidden_result. cbn [fst snd this]. intro env'.
  rewrite onHidden_result. unfold hidden.
  destruct (pauseOnHidden a) eqn:F.
  - destruct ((0 <? startTime a) && negb (isPaused a)) eqn:G; simpl;
      rewrite F; simpl.
    + rewrite andb_false_r. reflexivity.
    + rewrite G. reflexivity.
  - rewrite F. reflexivity.
Qed.

(** After [onShow()] there is nothing left for [onShow()] to do. *)
Lemma onShow_settles (a : Animator) (env : Host) :
  settled onShow (this (exec onShow (mkWorld a env))).
Proof.
  intro env'. unfold exec. rewrite (onShow_run (mkWorld a env)). simpl this.
  destruct (resumeOnShown a) eqn:F.
  - set (w0 := with_this (set_isPauseRequested false a) (mkWorld a env)).
    destruct (isPaused (this w0)) eqn:P.
    + assert (R : isPauseRequested (this w0) = false) by reflexivity.
      rewrite (resume_paused w0 R P). cbv zeta. cbn [fst snd].
      set (w2 := with_this _ (after_read w0)).
      destruct (animate_frame w2) as (_ & H2 & H3 & _ & H5 & _).
      rewrite onShow_run. cbn [this]. rewrite H5. simpl resumeOnShown.
      rewrite F.
      pose proof (set_isPauseRequested_same (this (exec animate w2))) as S.
      rewrite H3 in S. change (isPauseRequested (this w2)) with false in S.
      unfold with_this. cbn [this host]. rewrite S.
      apply resume_idle. cbn [this]. rewrite H2. apply andb_false_r.
    + rewrite (resume_idle w0) by (rewrite P; apply andb_false_r).
      cbn [fst snd]. rewrite onShow_run. cbn [this].
      change (resumeOnShown (this w0)) with (resumeOnShown a). rewrite F.
      apply resume_idle. simpl. simpl in P. rewrite P. reflexivity.
  - cbn [fst snd this]. rewrite onShow_run. cbn [this]. now rewrite F.
Qed.

Lemma each_listener_settles (listener : M unit) (i : nat)
  (l : list Animator) (env : Host) :
  (forall a e, settled listener (this (exec listener (mkWorld a e)))) ->
  Forall (settled listener) (fst (fst (each_listener listener i l env))).
Proof.
  intro H. revert i env. induction l as [|a l IH]; intros i env.
  - constructor.
  - simpl each_listener.
    destruct (listener (mkWorld a env)) as [[[] w] out] eqn:E.
    specialize (IH (S i) (host w)).
    destruct (each_listener listener (S i) l (host w)) as [[l' env'] out'].
    simpl. constructor; [|exact IH].
    replace (this w) with (this (exec listener (mkWorld a env)))
      by (unfold exec; now rewrite E).
    apply H.
Qed.

Lemma each_listener_settled (listener : M unit) (i : nat)
  (l : list Animator) (env : Host) :
  Forall (settled listener) l ->
  each_listener listener i l env = (l, env, []).
Proof.
  intro H. revert i. induction H as [|a l Ha Hl IH]; intro i; [reflexivity|].
  simpl each_listener. rewrite (Ha env). cbn [this host].
  rewrite IH. reflexivity.
Qed.

(** X17. The module listens to ten events that report the page hidden or
    shown.  When two of them in a row report the same thing (a [blur] and
    then a [visibilitychange] with [document.hidden] set, say), the second
    one changes no animator, reads no clock and calls no subscriber. *)
Theorem repeated_report_changes_nothing (e1 e2 : DomEvent) (p : Page) :
  reports_hidden e1 = reports_hidden e2 ->
  dispatch e2 (fst (dispatch e1 p)) = (fst (dispatch e1 p), []).
Proof.
  intro E. rewrite !dispatch_reports, <- E.
  destruct (reports_hidden e1).
  - unfold onWindowHidden at 2 3.
    pose proof (each_listener_settles onHidden 0 (windowListeners p)
                  (pageHost p) onHidden_settles) as S.
    destruct (each_listener onHidden 0 (windowListeners p) (pageHost p))
      as [[l env] out].
    cbn [fst snd] in S |- *. unfold onWindowHidden. cbn [windowListeners pageHost].
    rewrite (each_listener_settled onHidden 0 l env S). reflexivity.
  - unfold onWindowShow at 2 3.
    pose proof (each_listener_settles onShow 0 (windowListeners p)
                  (pageHost p) onShow_settles) as S.
    destruct (each_listener onShow 0 (windowListeners p) (pageHost p))
      as [[l env] out].
    cbn [fst snd] in S |- *. unfold onWindowShow. cbn [windowListeners pageHost].
    rewrite (each_listener_settled onShow 0 l env S). reflexivity.
Qed.

Lemma repeated_report_changes_nothing_witness :
  snd (dispatch blur two_animators) = [(0%nat, Invoke Pause 7%nat None)]
  /\ dispatch (visibilitychange true) (fst (dispatch blur two_animators))
     = (fst (dispatch blur two_animators), []).
Proof.
  split; [reflexivity|].
  apply (repeated_report_changes_nothing blur (visibilitychange true)).
  reflexivity.
Defined.
